(** * Patrol session coordinator: the module globals and handlers of
    [app/routes.py]

    The coordinator keeps its whole state in module-level globals, written by
    the Flask routes [select_circuit] and [deselect_circuit], by the MQTT
    callbacks [on_mqtt_connect] and [on_mqtt_message] and by the socket handler
    [silence_alarm].  The globals become one record, every handler a
    computation in a small monad that threads the globals, collects what is
    published, pushed, flashed and printed, and stops at the first Python
    exception with the globals as they were written up to that point.

    [on_mqtt_message] declares [global ALARM_TRIGGERED] and [global ALARMS]
    a second time in its scan-result arm, after the overdue arm has assigned
    and used them; CPython refuses such a repeated declaration when it
    compiles the module ("assigned to before global declaration").  The
    model reads the body as its statements say, every such name being the
    module global.

    The lists behind [ALARMS] and [SENTRY_CIRCUIT] are the objects of the
    selected [Shift] row; they are modelled by value, since nothing proved
    here looks at the row after it has been selected. *)

From Stdlib Require Import ZArith String Ascii List Bool Lia.
From Stdlib Require Import Floats DecimalString.
Import ListNotations.

Set Warnings "-register-all".

Local Open Scope string_scope.
Local Open Scope Z_scope.

(** ** Python values that reach the handlers *)

Module Py.

(** What [json.loads] returns: [None], [bool], [int], [float], [str],
    [list], or a [dict] whose items keep the order of the document. *)
Inductive json : Type :=
| JNull
| JBool (b : bool)
| JInt (z : Z)
| JFloat (f : float)
| JStr (s : string)
| JList (l : list json)
| JObject (items : list (string * json)).

(** Exceptions the handlers can let escape. *)
Inductive exn : Type :=
| JSONDecodeError
| AttributeError
| ValueError
| TypeError
| OverflowError.

(** [bool(v)]. *)
Definition truthy (v : json) : bool :=
  match v with
  | JNull => false
  | JBool b => b
  | JInt z => negb (z =? 0)
  | JFloat f => negb (PrimFloat.eqb f 0%float)
  | JStr s => negb (s =? "")%string
  | JList l => match l with [] => false | _ :: _ => true end
  | JObject items => match items with [] => false | _ :: _ => true end
  end.

(** [v == s] for a string literal [s]: only a [str] equals a [str]. *)
Definition eq_str (v : json) (s : string) : bool :=
  match v with
  | JStr t => (t =? s)%string
  | _ => false
  end.

(** An argument of [datetime.fromtimestamp]: an [int] (a [bool] is one) or
    a [float]; anything else is a [TypeError]. *)
Inductive number : Type :=
| NInt (z : Z)
| NFloat (f : float).

Definition as_number (v : json) : option number :=
  match v with
  | JBool b => Some (NInt (if b then 1 else 0))
  | JInt z => Some (NInt z)
  | JFloat f => Some (NFloat f)
  | _ => None
  end.

(** [c.upper()] on one ASCII character. *)
Definition upper_ascii (c : ascii) : ascii :=
  let n := nat_of_ascii c in
  if (Nat.leb 97 n && Nat.leb n 122)%bool then ascii_of_nat (n - 32) else c.

(** [s.upper()]; strings are modelled as ASCII strings. *)
Fixpoint upper (s : string) : string :=
  match s with
  | EmptyString => EmptyString
  | String c r => String (upper_ascii c) (upper r)
  end.

(** [s.split(sep)] for a one-character separator. *)
Fixpoint split (sep : ascii) (s : string) : list string :=
  match s with
  | EmptyString => [EmptyString]
  | String c r =>
      if Ascii.eqb c sep then EmptyString :: split sep r
      else match split sep r with
           | h :: t => String c h :: t
           | [] => [String c EmptyString]
           end
  end.

(** [topic.split("/")[-1]]. *)
Definition last_segment (topic : string) : string :=
  last (split "/" topic) EmptyString.

(** [list(payload.values())] and [list(payload.items())] of a decoded
    value: only a [dict] has them. *)
Definition dict_items (v : json) : option (list (string * json)) :=
  match v with
  | JObject items => Some items
  | _ => None
  end.

Definition dict_values (v : json) : option (list json) :=
  option_map (map snd) (dict_items v).

End Py.

Import Py.

(** ** Rows of the record store and what the handlers take from outside *)

(** Modelled from the spec: the status of a checkpoint-visit entry
    ([utils.py], which builds and updates circuits, is not among the
    sources). *)
Inductive status : Type :=
| pending
| confirmed
| missed.

(** Modelled from the spec: a checkpoint-visit entry of a circuit,
    [{checkpoint, sentry, card, expected_time, observed_time|none, status}]. *)
Record entry : Type := mkEntry {
  checkpoint : string;
  sentry : string;
  card : string;
  expected_time : Z;
  observed_time : option json;
  status_of : status
}.

(** Modelled from the spec: a circuit is the ordered sequence of its
    entries, the path frequencies map a checkpoint to its visit count. *)
Definition circuit : Type := list entry.

Definition path_freqs_t : Type := list (string * Z).

(** A [Shift] row, with the columns [select_circuit] reads.  [alarms] may be
    [None]: [create_route] builds a [Shift] without it. *)
Record Shift : Type := mkShift {
  shift_id : Z;
  shift_circuit : circuit;
  path_freqs : path_freqs_t;
  shift_start : Z;
  shift_end : Z;
  completed : bool;
  alarms : option (list string)
}.

(** A [Card] row: [Card(rfid_id=..., alias=...)] and its primary key. *)
Record Card : Type := mkCard {
  card_pk : Z;
  rfid_id : string;
  alias : string
}.

(** [v == c] for a decoded JSON value [v] and a [Card] row [c].  Neither
    [str] (nor any other decoded type) nor the model class compares with the
    other, so Python falls back on identity, and a decoded value is never the
    row object. *)
Definition eq_card (v : json) (c : Card) : bool := false.

(** [v in cards]. *)
Definition in_cards (v : json) (cards : list Card) : bool :=
  existsb (eq_card v) cards.

(** The names imported from [.mqtts]. *)
Record topics : Type := mkTopics {
  ALARM : string;
  ALERTS : string;
  CHKS_OVERDUE : string;
  CONNECTED : string;
  DONE : string;
  SHIFT_ON_OFF : string
}.

(** Library and helper code the handlers call and the sources do not hold:
    - [fromtimestamp_hms n] is [datetime.fromtimestamp(n).strftime("%H:%M:%S")]
      in the local time zone, or the exception for an epoch out of range;
    - [repr v] is what an f-string shows for a decoded value that is not a
      [str];
    - [update_circuit circuits scan_info] is [utils.update_circuit]: the
      circuit object after the call and the exception it raised, if any. *)
Record library : Type := mkLibrary {
  fromtimestamp_hms : number -> exn + string;
  repr : json -> string;
  update_circuit :
    option circuit -> list (string * json) -> option circuit * option exn
}.

(** What one run of a handler reads from the world: the wall clock as
    [datetime.now().strftime("%H:%M:%S")] and the rows of
    [Card.query.all()]. *)
Record env : Type := mkEnv {
  now : string;
  cards : list Card
}.

(** An MQTT message: its topic and what [json.loads(message.payload)] gives,
    [None] when the bytes do not decode. *)
Record message : Type := mkMessage {
  topic : string;
  payload : option json
}.

(** ** The module globals *)

Record globals : Type := mkGlobals {
  SHIFT_STATUS : bool;
  CURRENT_CIRCUIT : option Z;
  SENTRY_CIRCUIT : option circuit;
  CIRCUIT_COMPLETED : bool;
  PATHS : option path_freqs_t;
  START : Z;
  END : Z;
  ALARMS : option (list string);
  ALARM_TRIGGERED : bool;
  CURRENT_SCANNED_SENTRY : option json;
  APP_CONNECTED : bool;
  HANDLER_CONNECTED : bool;
  CHK_A_CONNECTED : bool;
  CHK_B_CONNECTED : bool;
  CHK_C_CONNECTED : bool;
  CHK_D_CONNECTED : bool
}.

(** The values the module gives its globals when it is loaded. *)
Definition initial_globals : globals :=
  {| SHIFT_STATUS := false;
     CURRENT_CIRCUIT := None;
     SENTRY_CIRCUIT := None;
     CIRCUIT_COMPLETED := false;
     PATHS := None;
     START := 0;
     END := 0;
     ALARMS := None;
     ALARM_TRIGGERED := false;
     CURRENT_SCANNED_SENTRY := None;
     APP_CONNECTED := false;
     HANDLER_CONNECTED := false;
     CHK_A_CONNECTED := false;
     CHK_B_CONNECTED := false;
     CHK_C_CONNECTED := false;
     CHK_D_CONNECTED := false |}.

(** One assignment [NAME = v] to a global. *)
Definition set_SHIFT_STATUS (v : bool) (g : globals) : globals :=
  mkGlobals v (CURRENT_CIRCUIT g) (SENTRY_CIRCUIT g) (CIRCUIT_COMPLETED g)
    (PATHS g) (START g) (END g) (ALARMS g) (ALARM_TRIGGERED g)
    (CURRENT_SCANNED_SENTRY g) (APP_CONNECTED g) (HANDLER_CONNECTED g)
    (CHK_A_CONNECTED g) (CHK_B_CONNECTED g) (CHK_C_CONNECTED g)
    (CHK_D_CONNECTED g).

Definition set_CURRENT_CIRCUIT (v : option Z) (g : globals) : globals :=
  mkGlobals (SHIFT_STATUS g) v (SENTRY_CIRCUIT g) (CIRCUIT_COMPLETED g)
    (PATHS g) (START g) (END g) (ALARMS g) (ALARM_TRIGGERED g)
    (CURRENT_SCANNED_SENTRY g) (APP_CONNECTED g) (HANDLER_CONNECTED g)
    (CHK_A_CONNECTED g) (CHK_B_CONNECTED g) (CHK_C_CONNECTED g)
    (CHK_D_CONNECTED g).

Definition set_SENTRY_CIRCUIT (v : option circuit) (g : globals) : globals :=
  mkGlobals (SHIFT_STATUS g) (CURRENT_CIRCUIT g) v (CIRCUIT_COMPLETED g)
    (PATHS g) (START g) (END g) (ALARMS g) (ALARM_TRIGGERED g)
    (CURRENT_SCANNED_SENTRY g) (APP_CONNECTED g) (HANDLER_CONNECTED g)
    (CHK_A_CONNECTED g) (CHK_B_CONNECTED g) (CHK_C_CONNECTED g)
    (CHK_D_CONNECTED g).

Definition set_CIRCUIT_COMPLETED (v : bool) (g : globals) : globals :=
  mkGlobals (SHIFT_STATUS g) (CURRENT_CIRCUIT g) (SENTRY_CIRCUIT g) v
    (PATHS g) (START g) (END g) (ALARMS g) (ALARM_TRIGGERED g)
    (CURRENT_SCANNED_SENTRY g) (APP_CONNECTED g) (HANDLER_CONNECTED g)
    (CHK_A_CONNECTED g) (CHK_B_CONNECTED g) (CHK_C_CONNECTED g)
    (CHK_D_CONNECTED g).

Definition set_PATHS (v : option path_freqs_t) (g : globals) : globals :=
  mkGlobals (SHIFT_STATUS g) (CURRENT_CIRCUIT g) (SENTRY_CIRCUIT g)
    (CIRCUIT_COMPLETED g) v (START g) (END g) (ALARMS g) (ALARM_TRIGGERED g)
    (CURRENT_SCANNED_SENTRY g) (APP_CONNECTED g) (HANDLER_CONNECTED g)
    (CHK_A_CONNECTED g) (CHK_B_CONNECTED g) (CHK_C_CONNECTED g)
    (CHK_D_CONNECTED g).

Definition set_START (v : Z) (g : globals) : globals :=
  mkGlobals (SHIFT_STATUS g) (CURRENT_CIRCUIT g) (SENTRY_CIRCUIT g)
    (CIRCUIT_COMPLETED g) (PATHS g) v (END g) (ALARMS g) (ALARM_TRIGGERED g)
    (CURRENT_SCANNED_SENTRY g) (APP_CONNECTED g) (HANDLER_CONNECTED g)
    (CHK_A_CONNECTED g) (CHK_B_CONNECTED g) (CHK_C_CONNECTED g)
    (CHK_D_CONNECTED g).

Definition set_END (v : Z) (g : globals) : globals :=
  mkGlobals (SHIFT_STATUS g) (CURRENT_CIRCUIT g) (SENTRY_CIRCUIT g)
    (CIRCUIT_COMPLETED g) (PATHS g) (START g) v (ALARMS g) (ALARM_TRIGGERED g)
    (CURRENT_SCANNED_SENTRY g) (APP_CONNECTED g) (HANDLER_CONNECTED g)
    (CHK_A_CONNECTED g) (CHK_B_CONNECTED g) (CHK_C_CONNECTED g)
    (CHK_D_CONNECTED g).

Definition set_ALARMS (v : option (list string)) (g : globals) : globals :=
  mkGlobals (SHIFT_STATUS g) (CURRENT_CIRCUIT g) (SENTRY_CIRCUIT g)
    (CIRCUIT_COMPLETED g) (PATHS g) (START g) (END g) v (ALARM_TRIGGERED g)
    (CURRENT_SCANNED_SENTRY g) (APP_CONNECTED g) (HANDLER_CONNECTED g)
    (CHK_A_CONNECTED g) (CHK_B_CONNECTED g) (CHK_C_CONNECTED g)
    (CHK_D_CONNECTED g).

Definition set_ALARM_TRIGGERED (v : bool) (g : globals) : globals :=
  mkGlobals (SHIFT_STATUS g) (CURRENT_CIRCUIT g) (SENTRY_CIRCUIT g)
    (CIRCUIT_COMPLETED g) (PATHS g) (START g) (END g) (ALARMS g) v
    (CURRENT_SCANNED_SENTRY g) (APP_CONNECTED g) (HANDLER_CONNECTED g)
    (CHK_A_CONNECTED g) (CHK_B_CONNECTED g) (CHK_C_CONNECTED g)
    (CHK_D_CONNECTED g).

Definition set_APP_CONNECTED (v : bool) (g : globals) : globals :=
  mkGlobals (SHIFT_STATUS g) (CURRENT_CIRCUIT g) (SENTRY_CIRCUIT g)
    (CIRCUIT_COMPLETED g) (PATHS g) (START g) (END g) (ALARMS g)
    (ALARM_TRIGGERED g) (CURRENT_SCANNED_SENTRY g) v (HANDLER_CONNECTED g)
    (CHK_A_CONNECTED g) (CHK_B_CONNECTED g) (CHK_C_CONNECTED g)
    (CHK_D_CONNECTED g).

Definition set_HANDLER_CONNECTED (v : bool) (g : globals) : globals :=
  mkGlobals (SHIFT_STATUS g) (CURRENT_CIRCUIT g) (SENTRY_CIRCUIT g)
    (CIRCUIT_COMPLETED g) (PATHS g) (START g) (END g) (ALARMS g)
    (ALARM_TRIGGERED g) (CURRENT_SCANNED_SENTRY g) (APP_CONNECTED g) v
    (CHK_A_CONNECTED g) (CHK_B_CONNECTED g) (CHK_C_CONNECTED g)
    (CHK_D_CONNECTED g).

Definition set_CHK_A_CONNECTED (v : bool) (g : globals) : globals :=
  mkGlobals (SHIFT_STATUS g) (CURRENT_CIRCUIT g) (SENTRY_CIRCUIT g)
    (CIRCUIT_COMPLETED g) (PATHS g) (START g) (END g) (ALARMS g)
    (ALARM_TRIGGERED g) (CURRENT_SCANNED_SENTRY g) (APP_CONNECTED g)
    (HANDLER_CONNECTED g) v (CHK_B_CONNECTED g) (CHK_C_CONNECTED g)
    (CHK_D_CONNECTED g).

Definition set_CHK_B_CONNECTED (v : bool) (g : globals) : globals :=
  mkGlobals (SHIFT_STATUS g) (CURRENT_CIRCUIT g) (SENTRY_CIRCUIT g)
    (CIRCUIT_COMPLETED g) (PATHS g) (START g) (END g) (ALARMS g)
    (ALARM_TRIGGERED g) (CURRENT_SCANNED_SENTRY g) (APP_CONNECTED g)
    (HANDLER_CONNECTED g) (CHK_A_CONNECTED g) v (CHK_C_CONNECTED g)
    (CHK_D_CONNECTED g).

Definition set_CHK_C_CONNECTED (v : bool) (g : globals) : globals :=
  mkGlobals (SHIFT_STATUS g) (CURRENT_CIRCUIT g) (SENTRY_CIRCUIT g)
    (CIRCUIT_COMPLETED g) (PATHS g) (START g) (END g) (ALARMS g)
    (ALARM_TRIGGERED g) (CURRENT_SCANNED_SENTRY g) (APP_CONNECTED g)
    (HANDLER_CONNECTED g) (CHK_A_CONNECTED g) (CHK_B_CONNECTED g) v
    (CHK_D_CONNECTED g).

Definition set_CHK_D_CONNECTED (v : bool) (g : globals) : globals :=
  mkGlobals (SHIFT_STATUS g) (CURRENT_CIRCUIT g) (SENTRY_CIRCUIT g)
    (CIRCUIT_COMPLETED g) (PATHS g) (START g) (END g) (ALARMS g)
    (ALARM_TRIGGERED g) (CURRENT_SCANNED_SENTRY g) (APP_CONNECTED g)
    (HANDLER_CONNECTED g) (CHK_A_CONNECTED g) (CHK_B_CONNECTED g)
    (CHK_C_CONNECTED g) v.

(** ** Running a handler *)

(** What a handler sends out. *)
Inductive effect : Type :=
| Publish (to : string) (body : string) (qos : Z)
| Subscribe (to : string) (qos : Z)
| Emit (event : string) (alert_level : string) (text : string)
| Flash (text : string) (category : string)
| Print (text : string).

(** What a Flask route hands back. *)
Inductive response : Type :=
| Redirect (endpoint : string)
| Render (template : string).

(** The end of a run: the globals as the run left them, what it sent out in
    order, and either the exception that escaped or the returned value. *)
Record run (A : Type) : Type := mkRun {
  final : globals;
  outputs : list effect;
  result : exn + A
}.

Arguments mkRun {A} _ _ _.
Arguments final {A} _.
Arguments outputs {A} _.
Arguments result {A} _.

Definition M (A : Type) : Type := globals -> run A.

Definition ret {A : Type} (a : A) : M A :=
  fun g => mkRun g [] (inr a).

Definition raise {A : Type} (e : exn) : M A :=
  fun g => mkRun g [] (inl e).

Definition bind {A B : Type} (m : M A) (k : A -> M B) : M B :=
  fun g =>
    let r := m g in
    match result r with
    | inl e => mkRun (final r) (outputs r) (inl e)
    | inr a =>
        let r' := k a (final r) in
        mkRun (final r') (outputs r ++ outputs r')%list (result r')
    end.

Declare Scope py_scope.
Delimit Scope py_scope with py.

Notation "x <- m ;; k" := (bind m (fun x => k))
  (at level 61, m at next level, right associativity) : py_scope.
Notation "' p <- m ;; k" := (bind m (fun x => match x with p => k end))
  (at level 61, p pattern, m at next level, right associativity) : py_scope.
Notation "m ;; k" := (bind m (fun _ => k))
  (at level 61, right associativity) : py_scope.

Local Open Scope py_scope.

Definition assign (f : globals -> globals) : M unit :=
  fun g => mkRun (f g) [] (inr tt).

Definition send (o : effect) : M unit :=
  fun g => mkRun g [o] (inr tt).

(** The exception of a run, if one escaped. *)
Definition raised {A : Type} (r : run A) : option exn :=
  match result r with
  | inl e => Some e
  | inr _ => None
  end.

(** [json.loads(message.payload)]. *)
Definition json_loads (m : message) : M json :=
  match payload m with
  | Some v => ret v
  | None => raise JSONDecodeError
  end.

(** [list(payload.values())]: [AttributeError] on anything but a [dict]. *)
Definition values (v : json) : M (list json) :=
  match dict_values v with
  | Some l => ret l
  | None => raise AttributeError
  end.

(** [a, b = l], [a, b, c, _ = l] and [a, b, c, d, e = l]: [ValueError] on any
    other length. *)
Definition unpack2 (l : list json) : M (json * json) :=
  match l with
  | [a; b] => ret (a, b)
  | _ => raise ValueError
  end.

Definition unpack4 (l : list json) : M (json * json * json * json) :=
  match l with
  | [a; b; c; d] => ret (a, b, c, d)
  | _ => raise ValueError
  end.

Definition unpack5 (l : list json) : M (json * json * json * json * json) :=
  match l with
  | [a; b; c; d; e] => ret (a, b, c, d, e)
  | _ => raise ValueError
  end.

(** [v.upper()]: only a [str] has the method. *)
Definition str_upper (v : json) : M string :=
  match v with
  | JStr s => ret (upper s)
  | _ => raise AttributeError
  end.

(** [datetime.fromtimestamp(v).strftime("%H:%M:%S")]. *)
Definition fromtimestamp_strftime (lib : library) (v : json) : M string :=
  match as_number v with
  | None => raise TypeError
  | Some n =>
      match fromtimestamp_hms lib n with
      | inl e => raise e
      | inr s => ret s
      end
  end.

(** [{v}] inside an f-string. *)
Definition fmt (lib : library) (v : json) : string :=
  match v with
  | JStr s => s
  | _ => repr lib v
  end.

(** [ALARMS.append(t)]: the global still holds [None] until a circuit with an
    alarm list is selected. *)
Definition ALARMS_append (t : string) : M unit :=
  fun g =>
    match ALARMS g with
    | Some l => mkRun (set_ALARMS (Some (l ++ [t])%list) g) [] (inr tt)
    | None => mkRun g [] (inl AttributeError)
    end.

(** [utils.update_circuit(circuits=SENTRY_CIRCUIT, scan_info=scan_info)],
    which works on the circuit object in place. *)
Definition call_update_circuit (lib : library)
    (scan_info : list (string * json)) : M unit :=
  fun g =>
    let (c, err) := update_circuit lib (SENTRY_CIRCUIT g) scan_info in
    mkRun (set_SENTRY_CIRCUIT c g) []
      (match err with Some e => inl e | None => inr tt end).

(** ** The handlers *)

(** The [if form.validate_on_submit()] arm of [select_circuit] runs on
    [Some circuit], the row chosen in the form; [None] is a request that does
    not validate. *)
Definition select_circuit (tp : topics) (form : option Shift) : M response :=
  match form with
  | Some circuit =>
      assign (set_SHIFT_STATUS true) ;;
      assign (set_CURRENT_CIRCUIT (Some (shift_id circuit))) ;;
      assign (set_SENTRY_CIRCUIT (Some (shift_circuit circuit))) ;;
      assign (set_PATHS (Some (path_freqs circuit))) ;;
      assign (set_START (shift_start circuit)) ;;
      assign (set_END (shift_end circuit)) ;;
      assign (set_CIRCUIT_COMPLETED (completed circuit)) ;;
      assign (set_ALARMS (alarms circuit)) ;;
      send (Publish (SHIFT_ON_OFF tp) "ON" 0) ;;
      send (Flash "Shift set!" "success") ;;
      ret (Redirect "view_current_route")
  | None => ret (Render "select-circuit.html")
  end.

Definition deselect_circuit (tp : topics) : M response :=
  assign (set_SHIFT_STATUS false) ;;
  assign (set_CURRENT_CIRCUIT None) ;;
  assign (set_SENTRY_CIRCUIT None) ;;
  assign (set_START 0) ;;
  assign (set_END 0) ;;
  send (Publish (SHIFT_ON_OFF tp) "OFF" 0) ;;
  send (Flash "Shift Deselected." "info") ;;
  ret (Redirect "select_circuit").

Definition on_mqtt_connect (tp : topics) (rc : Z) : M unit :=
  if rc =? 0 then
    assign (set_APP_CONNECTED true) ;;
    send (Subscribe (CHKS_OVERDUE tp) 2) ;;
    send (Subscribe (CONNECTED tp) 2) ;;
    send (Subscribe (ALERTS tp) 2) ;;
    send (Subscribe (DONE tp) 2)
  else ret tt.

(** The [match client:] statement of the connectivity branch. *)
Definition match_client (client connected : json) : M unit :=
  if eq_str client "circuit-handler" then
    assign (set_HANDLER_CONNECTED (truthy connected))
  else if eq_str client "checkpoint-A" then
    assign (set_CHK_A_CONNECTED (truthy connected))
  else if eq_str client "checkpoint-B" then
    assign (set_CHK_B_CONNECTED (truthy connected))
  else if eq_str client "checkpoint-C" then
    assign (set_CHK_C_CONNECTED (truthy connected))
  else if eq_str client "checkpoint-D" then
    assign (set_CHK_D_CONNECTED (truthy connected))
  else ret tt.

(** The three lines that raise the alarm in both alarm branches. *)
Definition raise_alarm (tp : topics) (e : env) : M unit :=
  assign (set_ALARM_TRIGGERED true) ;;
  ALARMS_append (now e) ;;
  send (Publish (ALARM tp) "ON" 2).

Definition on_connected (m : message) : M unit :=
  payload <- json_loads m ;;
  l <- values payload ;;
  '(client, connected) <- unpack2 l ;;
  match_client client connected.

Definition on_overdue_scan (tp : topics) (lib : library) (e : env)
    (m : message) : M unit :=
  payload <- json_loads m ;;
  l <- values payload ;;
  '(id, chk, time, _) <- unpack4 l ;;
  time <- fromtimestamp_strftime lib time ;;
  ID <- str_upper id ;;
  let message :=
    "<strong>OVERDUE CHECK-IN!</strong> Sentry with card ID: " ++ ID
    ++ " expected at checkpoint " ++ fmt lib chk ++ " at " ++ time ++ "." in
  raise_alarm tp e ;;
  send (Emit "alert-msgs" "alert-danger" message).

(** The tag of an invalid scan. *)
Definition alert_tag (e : env) (reason id : json) : M string :=
  if eq_str reason "card not on duty" then
    ret (if negb (in_cards id (cards e)) then "UNKNOWN CARD" else "STOLEN CARD")
  else str_upper reason.

Definition on_alerts (tp : topics) (lib : library) (e : env)
    (m : message) : M unit :=
  payload <- json_loads m ;;
  l <- values payload ;;
  '(valid, reason, id, chk, time) <- unpack5 l ;;
  if truthy valid then
    let scan_info :=
      skipn 2 (match dict_items payload with Some i => i | None => [] end) in
    call_update_circuit lib scan_info ;;
    ID <- str_upper id ;;
    let message :=
      "<strong>SUCCESSFUL CHECK-IN!</strong> Sentry with card ID: " ++ ID
      ++ " checked in at checkpoint " ++ fmt lib chk ++ " at "
      ++ fmt lib time ++ "." in
    send (Emit "alert-msgs" "alert-success" message)
  else
    tag <- alert_tag e reason id ;;
    raise_alarm tp e ;;
    ID <- str_upper id ;;
    let message :=
      "<strong>" ++ tag ++ "!</strong> Sentry with card ID: " ++ ID
      ++ " checked in at checkpoint " ++ fmt lib chk ++ " at "
      ++ fmt lib time ++ "." in
    send (Emit "alert-msgs" "alert-danger" message).

Definition on_done (tp : topics) : M unit :=
  assign (set_CIRCUIT_COMPLETED true) ;;
  assign (set_SHIFT_STATUS false) ;;
  send (Publish (SHIFT_ON_OFF tp) "OFF" 0) ;;
  send (Emit "alert-msgs" "alert-success"
          "<strong>CIRCUIT COMPLETE!</strong> Save and exit.").

(** The [if]/[elif] chain on the topic. *)
Definition on_mqtt_message (tp : topics) (lib : library) (e : env)
    (m : message) : M unit :=
  if (last_segment (topic m) =? "connected")%string then on_connected m
  else if (last_segment (topic m) =? "overdue-scan")%string then
    on_overdue_scan tp lib e m
  else if (topic m =? ALERTS tp)%string then on_alerts tp lib e m
  else if (topic m =? DONE tp)%string then on_done tp
  else ret tt.

Definition silence_alarm (tp : topics) : M response :=
  send (Print "alarm silenced") ;;
  assign (set_ALARM_TRIGGERED false) ;;
  send (Publish (ALARM tp) "OFF" 2) ;;
  ret (Redirect "home").

(** ** Properties of the globals that a computation keeps *)

(** [m] keeps [P]: from globals with [P] it ends, normally or by an
    exception, in globals with [P]. *)
Definition preserves {A : Type} (P : globals -> Prop) (m : M A) : Prop :=
  forall g, P g -> P (final (m g)).

(** [m] only computes: it writes no global and sends nothing. *)
Definition silent {A : Type} (m : M A) : Prop :=
  forall g, final (m g) = g /\ outputs (m g) = [].

(** ** Histories of the coordinator *)

(** The entry points that write globals.  The other routes of the module
    read globals or work on the record store only. *)
Inductive op : Type :=
| SelectCircuit (form : option Shift)
| DeselectCircuit
| MqttConnect (rc : Z)
| MqttMessage (e : env) (m : message)
| SilenceAlarm.

(** The globals after one entry point has run; an exception that escapes
    leaves them as they were written up to the raise. *)
Definition step (tp : topics) (lib : library) (o : op) (g : globals)
    : globals :=
  match o with
  | SelectCircuit form => final (select_circuit tp form g)
  | DeselectCircuit => final (deselect_circuit tp g)
  | MqttConnect rc => final (on_mqtt_connect tp rc g)
  | MqttMessage e m => final (on_mqtt_message tp lib e m g)
  | SilenceAlarm => final (silence_alarm tp g)
  end.

Definition exec (tp : topics) (lib : library) (ops : list op) (g : globals)
    : globals :=
  fold_left (fun g o => step tp lib o g) ops g.

(** A form submission that validates, the only step that loads a circuit. *)
Definition selects (o : op) : bool :=
  match o with
  | SelectCircuit (Some _) => true
  | _ => false
  end.

(** The globals that can be met before any circuit has ever been selected. *)
Inductive never_selected (tp : topics) (lib : library) : globals -> Prop :=
| never_selected_start : never_selected tp lib initial_globals
| never_selected_step (g : globals) (o : op) :
    never_selected tp lib g ->
    selects o = false ->
    never_selected tp lib (step tp lib o g).

(** ** The notions the claims are stated with *)

(** The fixed set of device names of the connectivity table. *)
Definition device_names : list string :=
  ["circuit-handler"; "checkpoint-A"; "checkpoint-B"; "checkpoint-C";
   "checkpoint-D"].

Definition known_device (client : json) : bool :=
  existsb (eq_str client) device_names.

(** No circuit is under monitoring: the globals that [deselect_circuit]
    writes hold what it writes, which is also what they hold when the module
    is loaded. *)
Definition no_session (g : globals) : Prop :=
  SHIFT_STATUS g = false /\ CURRENT_CIRCUIT g = None
  /\ SENTRY_CIRCUIT g = None /\ START g = 0 /\ END g = 0.

(** The card identifier is the [rfid_id] of a row of the card table. *)
Definition card_registered (id : string) (rows : list Card) : bool :=
  existsb (fun c => (rfid_id c =? id)%string) rows.

(** The arm of the [if]/[elif] chain of [on_mqtt_message] that a message
    takes. *)
Inductive arm : Type :=
| Connected
| OverdueScan
| Alerts
| Done
| Unhandled.

Definition arm_of (tp : topics) (m : message) : arm :=
  if (last_segment (topic m) =? "connected")%string then Connected
  else if (last_segment (topic m) =? "overdue-scan")%string then OverdueScan
  else if (topic m =? ALERTS tp)%string then Alerts
  else if (topic m =? DONE tp)%string then Done
  else Unhandled.

(** The number of fields an arm unpacks, for the arms that read the
    payload. *)
Definition fields_expected (a : arm) : option nat :=
  match a with
  | Connected => Some 2%nat
  | OverdueScan => Some 4%nat
  | Alerts => Some 5%nat
  | Done | Unhandled => None
  end.

(** A payload that does not have its [n] fields: bytes that do not decode,
    a value that is not an object, or an object with another number of
    fields; with the exception Python answers it with. *)
Definition shape_error (n : nat) (m : message) : option exn :=
  match payload m with
  | None => Some JSONDecodeError
  | Some v =>
      match dict_values v with
      | None => Some AttributeError
      | Some l => if Nat.eqb (length l) n then None else Some ValueError
      end
  end.

Definition missing_fields (tp : topics) (m : message) : option exn :=
  match fields_expected (arm_of tp m) with
  | Some n => shape_error n m
  | None => None
  end.

(** The field values of a payload that is an object. *)
Definition payload_values (m : message) : list json :=
  match payload m with
  | Some (JObject items) => map snd items
  | _ => []
  end.

(** An overdue event with a field of a wrong type: a time that is not a
    number the platform can show, or an id that is not a string. *)
Definition overdue_wrong_types (lib : library) (l : list json) : option exn :=
  match l with
  | [id; _; time; _] =>
      match as_number time with
      | None => Some TypeError
      | Some n =>
          match fromtimestamp_hms lib n with
          | inl x => Some x
          | inr _ => match id with JStr _ => None | _ => Some AttributeError end
          end
      end
  | _ => None
  end.

(** A scan result reported invalid whose reason is not a string. *)
Definition scan_wrong_types (l : list json) : option exn :=
  match l with
  | [valid; reason; _; _; _] =>
      if truthy valid then None
      else match reason with JStr _ => None | _ => Some AttributeError end
  | _ => None
  end.

Definition wrong_types (tp : topics) (lib : library) (m : message)
    : option exn :=
  match arm_of tp m with
  | OverdueScan => overdue_wrong_types lib (payload_values m)
  | Alerts => scan_wrong_types (payload_values m)
  | _ => None
  end.

(** A malformed payload: missing fields or wrong types. *)
Definition malformed (tp : topics) (lib : library) (m : message)
    : option exn :=
  match missing_fields tp m with
  | Some x => Some x
  | None => wrong_types tp lib m
  end.

(** An overdue event in good form: [{id, checkpoint, time, checked}] with a
    string id and a time the platform can show. *)
Definition overdue_event (lib : library) (m : message) : bool :=
  (last_segment (topic m) =? "overdue-scan")%string &&
  match payload m with
  | Some (JObject [(_, JStr _); (_, _); (_, time); (_, _)]) =>
      match as_number time with
      | Some n => match fromtimestamp_hms lib n with
                  | inr _ => true
                  | inl _ => false
                  end
      | None => false
      end
  | _ => false
  end.

(** A scan result reported invalid, in good form:
    [{valid, reason, id, checkpoint, time}] on the alerts topic with a falsy
    [valid] and a string reason. *)
Definition invalid_scan_event (tp : topics) (m : message) : bool :=
  negb (last_segment (topic m) =? "connected")%string &&
  negb (last_segment (topic m) =? "overdue-scan")%string &&
  (topic m =? ALERTS tp)%string &&
  match payload m with
  | Some (JObject [(_, valid); (_, JStr _); (_, _); (_, _); (_, _)]) =>
      negb (truthy valid)
  | _ => false
  end.

(** ** An example deployment, to run the handlers on *)

Module Sample.

(** Topic names of a deployment; the comment in [on_mqtt_message] gives
    ["sentry-platform/checkpoints/connected"] as one. *)
Definition tp : topics :=
  {| ALARM := "sentry-platform/backend-server/alarm";
     ALERTS := "sentry-platform/backend-server/alerts";
     CHKS_OVERDUE := "sentry-platform/circuit-handler/overdue-scan";
     CONNECTED := "sentry-platform/+/connected";
     DONE := "sentry-platform/circuit-handler/circuit-completed";
     SHIFT_ON_OFF := "sentry-platform/backend-server/shift-status" |}.

Definition digit (n : Z) : ascii := ascii_of_nat (48 + Z.to_nat n).

Definition two_digits (n : Z) : string :=
  String (digit (n / 10)) (String (digit (n mod 10)) EmptyString).

(** A platform whose local time is UTC and whose [localtime] takes the
    integer epochs of the years 1970 to 9999. *)
Definition utc_hms (n : number) : exn + string :=
  match n with
  | NInt z =>
      if (0 <=? z) && (z <=? 253402300799) then
        inr (two_digits ((z / 3600) mod 24) ++ ":"
             ++ two_digits ((z / 60) mod 60) ++ ":" ++ two_digits (z mod 60))
      else inl OverflowError
  | NFloat _ => inl OverflowError
  end.

(** Modelled from the spec: the conformance update of a valid scan, which
    "finds the matching pending entry for cardId/checkpoint, marks confirmed,
    records observed_time=epoch" and otherwise "does not fabricate a new
    entry" ([utils.update_circuit] is not among the sources). *)
Fixpoint confirm (id chk : string) (time : json) (c : circuit) : circuit :=
  match c with
  | [] => []
  | x :: rest =>
      if (card x =? id)%string && (checkpoint x =? chk)%string
         && match status_of x with pending => true | _ => false end
      then mkEntry (checkpoint x) (sentry x) (card x) (expected_time x)
             (Some time) confirmed :: rest
      else x :: confirm id chk time rest
  end.

Definition find_field (k : string) (items : list (string * json))
    : option json :=
  option_map snd (find (fun kv => (fst kv =? k)%string) items).

Definition conformance_update (c : option circuit)
    (scan_info : list (string * json)) : option circuit * option exn :=
  match c, find_field "id" scan_info, find_field "checkpoint" scan_info,
        find_field "time" scan_info with
  | Some entries, Some (JStr id), Some (JStr chk), Some time =>
      (Some (confirm id chk time entries), None)
  | _, _, _, _ => (c, None)
  end.

Definition show (v : json) : string :=
  match v with
  | JNull => "None"
  | JBool true => "True"
  | JBool false => "False"
  | JInt z => NilZero.string_of_int (Z.to_int z)
  | _ => "<object>"
  end.

Definition lib : library :=
  {| fromtimestamp_hms := utc_hms;
     repr := show;
     update_circuit := conformance_update |}.

(** Two registered cards, the first on duty in the stored circuit. *)
Definition card_rows : list Card :=
  [mkCard 1 "04a1b2c3" "card-1"; mkCard 2 "04d4e5f6" "card-2"].

Definition world : env := {| now := "08:31:07"; cards := card_rows |}.

Definition visit (chk : string) (t : Z) : entry :=
  mkEntry chk "Jane Doe" "04a1b2c3" t None pending.

(** A stored circuit of three pending visits, with no alarm on record. *)
Definition shift : Shift :=
  {| shift_id := 7;
     shift_circuit :=
       [visit "A" 1700000000; visit "B" 1700000600; visit "C" 1700001200];
     path_freqs := [("A", 1); ("B", 1); ("C", 1)];
     shift_start := 1700000000;
     shift_end := 1700003600;
     completed := false;
     alarms := Some [] |}.

Definition overdue (id chk : string) (t : Z) : message :=
  {| topic := CHKS_OVERDUE tp;
     payload := Some (JObject [("id", JStr id); ("checkpoint", JStr chk);
                               ("time", JInt t); ("checked", JBool false)]) |}.

Definition scan (valid : bool) (reason id chk : string) (t : Z) : message :=
  {| topic := ALERTS tp;
     payload := Some (JObject [("valid", JBool valid); ("reason", JStr reason);
                               ("id", JStr id); ("checkpoint", JStr chk);
                               ("time", JInt t)]) |}.

Definition status_event (client : string) (connected : bool) : message :=
  {| topic := "sentry-platform/checkpoints/connected";
     payload := Some (JObject [("id", JStr client);
                               ("connected", JBool connected)]) |}.

(** An overdue event that lacks its [time] and [checked] fields. *)
Definition truncated_overdue : message :=
  {| topic := CHKS_OVERDUE tp;
     payload := Some (JObject [("id", JStr "04a1b2c3");
                               ("checkpoint", JStr "A")]) |}.

(** The globals once [shift] is selected, and once the first visit has then
    been reported overdue. *)
Definition selected : globals :=
  exec tp lib [SelectCircuit (Some shift)] initial_globals.

Definition alarmed : globals :=
  exec tp lib
    [SelectCircuit (Some shift);
     MqttMessage world (overdue "04a1b2c3" "A" 1700000000)]
    initial_globals.

End Sample.

(** ** Notions for the further properties *)

(** The socket event of the `silence alarm' button. *)
Definition silences (o : op) : bool :=
  match o with
  | SilenceAlarm => true
  | _ => false
  end.

(** The route that deselects the circuit. *)
Definition deselects (o : op) : bool :=
  match o with
  | DeselectCircuit => true
  | _ => false
  end.

(** The items of a payload that is an object. *)
Definition payload_items (m : message) : list (string * json) :=
  match payload m with
  | Some (JObject items) => items
  | _ => []
  end.

(** The globals once the three alarm lines have all run on a history
    [history]. *)
Definition alarm_recorded (e : env) (history : list string) (g : globals)
    : globals :=
  set_ALARMS (Some (history ++ [now e])%list) (set_ALARM_TRIGGERED true g).

(** The globals once the shift-complete arm has run. *)
Definition shift_completed (g : globals) : globals :=
  set_SHIFT_STATUS false (set_CIRCUIT_COMPLETED true g).

(** The assignment a status event of a known device makes. *)
Definition device_writes : list (bool -> globals -> globals) :=
  [set_HANDLER_CONNECTED; set_CHK_A_CONNECTED; set_CHK_B_CONNECTED;
   set_CHK_C_CONNECTED; set_CHK_D_CONNECTED].

(** The ways one run of [on_mqtt_message] from globals [g] can end. *)
Inductive message_run (tp : topics) (e : env) (g : globals)
    : run unit -> Prop :=
| run_rejected (x : exn) :
    message_run tp e g (mkRun g [] (inl x))
| run_ignored :
    message_run tp e g (mkRun g [] (inr tt))
| run_device (write : bool -> globals -> globals) (b : bool) :
    In write device_writes ->
    message_run tp e g (mkRun (write b g) [] (inr tt))
| run_scan_failed (c : option circuit) (x : exn) :
    message_run tp e g (mkRun (set_SENTRY_CIRCUIT c g) [] (inl x))
| run_scan_confirmed (c : option circuit) (text : string) :
    message_run tp e g
      (mkRun (set_SENTRY_CIRCUIT c g)
         [Emit "alert-msgs" "alert-success" text] (inr tt))
| run_alarm_unrecorded :
    ALARMS g = None ->
    message_run tp e g
      (mkRun (set_ALARM_TRIGGERED true g) [] (inl AttributeError))
| run_alarm_unpushed (history : list string) :
    ALARMS g = Some history ->
    message_run tp e g
      (mkRun (alarm_recorded e history g) [Publish (ALARM tp) "ON" 2]
         (inl AttributeError))
| run_alarm (history : list string) (text : string) :
    ALARMS g = Some history ->
    message_run tp e g
      (mkRun (alarm_recorded e history g)
         [Publish (ALARM tp) "ON" 2; Emit "alert-msgs" "alert-danger" text]
         (inr tt))
| run_done :
    message_run tp e g
      (mkRun (shift_completed g)
         [Publish (SHIFT_ON_OFF tp) "OFF" 0;
          Emit "alert-msgs" "alert-success"
            "<strong>CIRCUIT COMPLETE!</strong> Save and exit."]
         (inr tt)).

(** What a run pushed to the viewers. *)
Definition pushes (o : effect) : bool :=
  match o with
  | Emit _ _ _ => true
  | _ => false
  end.

(** What a run published on the bus. *)
Definition publishes (o : effect) : bool :=
  match o with
  | Publish _ _ _ => true
  | _ => false
  end.

(** A scan result reported valid, with its five fields. *)
Definition valid_scan_event (tp : topics) (m : message) : bool :=
  match arm_of tp m, payload m with
  | Alerts, Some (JObject [(_, valid); (_, _); (_, _); (_, _); (_, _)]) =>
      truthy valid
  | _, _ => false
  end.

(** ** The assignments of [create_route] *)

(** A [Sentry] row, as [register_sentry] builds it. *)
Record Sentry : Type := mkSentry {
  national_id : string;
  full_name : string;
  phone_no : string
}.

(** [(sentries[x].full_name, cards[x].alias, cards[x].rfid_id)]; [None] is
    the [IndexError] of an index past the end of either list. *)
Definition assignment_at (sentries : list Sentry) (rows : list Card)
    (x : nat) : option (string * string * string) :=
  match nth_error sentries x, nth_error rows x with
  | Some s, Some c => Some (full_name s, alias c, rfid_id c)
  | _, _ => None
  end.

(** A list comprehension whose element expression can raise. *)
Fixpoint comprehension {A B : Type} (f : A -> option B) (xs : list A)
    : option (list B) :=
  match xs with
  | [] => Some []
  | x :: rest =>
      match f x with
      | None => None
      | Some y =>
          match comprehension f rest with
          | None => None
          | Some ys => Some (y :: ys)
          end
      end
  end.

(** [[... for x in range(len(cards))]]. *)
Definition assignments (sentries : list Sentry) (rows : list Card)
    : option (list (string * string * string)) :=
  comprehension (assignment_at sentries rows) (seq 0 (length rows)).

(** The test [len(cards) != len(sentries)] that [create_route] makes before
    it builds the assignments: [None] when it flashes the mismatch instead,
    [Some] with the outcome of the comprehension otherwise. *)
Definition checked_assignments (sentries : list Sentry) (rows : list Card)
    : option (option (list (string * string * string))) :=
  if negb (Nat.eqb (length rows) (length sentries)) then None
  else Some (assignments sentries rows).

(** * Properties *)

(** ** The examples run *)

Example upper_mixed : upper "a1-b2 Cd" = "A1-B2 CD".
Proof. reflexivity. Qed.

Example last_segment_nested :
  last_segment "sentry-platform/checkpoints/connected" = "connected".
Proof. reflexivity. Qed.

Example last_segment_trailing : last_segment "a/b/" = "".
Proof. reflexivity. Qed.

Example last_segment_empty : last_segment "" = "".
Proof. reflexivity. Qed.

Example truthy_nan : truthy (JFloat nan) = true.
Proof. reflexivity. Qed.

Example truthy_minus_zero : truthy (JFloat (-0)%float) = false.
Proof. reflexivity. Qed.

Example utc_hms_epoch : Sample.utc_hms (NInt 1700000000) = inr "22:13:20".
Proof. reflexivity. Qed.

(** A valid scan of the second visit confirms it and raises no alarm. *)
Example valid_scan_confirms_second :
  let r := on_mqtt_message Sample.tp Sample.lib Sample.world
             (Sample.scan true "" "04a1b2c3" "B" 1700000650) Sample.selected in
  option_map (map status_of) (SENTRY_CIRCUIT (final r))
    = Some [pending; confirmed; pending]
  /\ ALARM_TRIGGERED (final r) = false
  /\ outputs r
     = [Emit "alert-msgs" "alert-success"
          "<strong>SUCCESSFUL CHECK-IN!</strong> Sentry with card ID: 04A1B2C3 checked in at checkpoint B at 1700000650."].
Proof. vm_compute. repeat split. Qed.

(** A status event of a known device sets its flag. *)
Example checkpoint_B_connects :
  CHK_B_CONNECTED
    (final (on_mqtt_message Sample.tp Sample.lib Sample.world
              (Sample.status_event "checkpoint-B" true) initial_globals))
  = true.
Proof. reflexivity. Qed.

(** ** The monad *)

Lemma bind_ret_l {A B : Type} (a : A) (k : A -> M B) (g : globals) :
  bind (ret a) k g = k a g.
Proof. unfold bind, ret; simpl. destruct (k a g); reflexivity. Qed.

Lemma bind_raise {A B : Type} (x : exn) (k : A -> M B) (g : globals) :
  bind (raise x) k g = raise x g.
Proof. reflexivity. Qed.

Lemma bind_assign {B : Type} (f : globals -> globals) (k : unit -> M B)
    (g : globals) :
  bind (assign f) k g = k tt (f g).
Proof. unfold bind, assign; simpl. destruct (k tt (f g)); reflexivity. Qed.

Lemma bind_send {B : Type} (o : effect) (k : unit -> M B) (g : globals) :
  bind (send o) k g
  = mkRun (final (k tt g)) (o :: outputs (k tt g)) (result (k tt g)).
Proof. reflexivity. Qed.

Lemma bind_assoc {A B C : Type} (m : M A) (k : A -> M B) (h : B -> M C)
    (g : globals) :
  bind (bind m k) h g = bind m (fun a => bind (k a) h) g.
Proof.
  unfold bind; simpl.
  destruct (result (m g)) as [x | a]; simpl; [reflexivity |].
  destruct (result (k a (final (m g)))) as [x | b]; simpl; [reflexivity |].
  rewrite app_assoc; reflexivity.
Qed.

Lemma preserves_ret {A : Type} (P : globals -> Prop) (a : A) :
  preserves P (ret a).
Proof. intros g H; exact H. Qed.

Lemma preserves_raise {A : Type} (P : globals -> Prop) (x : exn) :
  preserves P (@raise A x).
Proof. intros g H; exact H. Qed.

Lemma preserves_send (P : globals -> Prop) (o : effect) :
  preserves P (send o).
Proof. intros g H; exact H. Qed.

Lemma preserves_assign (P : globals -> Prop) (f : globals -> globals) :
  (forall g, P g -> P (f g)) -> preserves P (assign f).
Proof. intros Hf g H; apply Hf, H. Qed.

Lemma preserves_bind {A B : Type} (P : globals -> Prop) (m : M A)
    (k : A -> M B) :
  preserves P m -> (forall a, preserves P (k a)) -> preserves P (bind m k).
Proof.
  intros Hm Hk g H. unfold bind.
  specialize (Hm g H).
  destruct (result (m g)) as [x | a]; simpl; [exact Hm |].
  apply Hk, Hm.
Qed.

Lemma silent_preserves {A : Type} (P : globals -> Prop) (m : M A) :
  silent m -> preserves P m.
Proof. intros Hs g H. destruct (Hs g) as [-> _]. exact H. Qed.

Lemma silent_json_loads (m : message) : silent (json_loads m).
Proof. intro g. unfold json_loads. destruct (payload m); split; reflexivity. Qed.

Lemma silent_values (v : json) : silent (values v).
Proof. intro g. unfold values. destruct (dict_values v); split; reflexivity. Qed.

Lemma silent_unpack2 (l : list json) : silent (unpack2 l).
Proof.
  intro g. destruct l as [| a [| b [| c l]]]; split; reflexivity.
Qed.

Lemma silent_unpack4 (l : list json) : silent (unpack4 l).
Proof.
  intro g.
  destruct l as [| a [| b [| c [| d [| e l]]]]]; split; reflexivity.
Qed.

Lemma silent_unpack5 (l : list json) : silent (unpack5 l).
Proof.
  intro g.
  destruct l as [| a [| b [| c [| d [| e [| f l]]]]]]; split; reflexivity.
Qed.

Lemma silent_str_upper (v : json) : silent (str_upper v).
Proof. intro g. destruct v; split; reflexivity. Qed.

Lemma silent_fromtimestamp_strftime (lib : library) (v : json) :
  silent (fromtimestamp_strftime lib v).
Proof.
  intro g. unfold fromtimestamp_strftime.
  destruct (as_number v) as [n |]; [| split; reflexivity].
  destruct (fromtimestamp_hms lib n); split; reflexivity.
Qed.

Lemma silent_alert_tag (e : env) (reason id : json) :
  silent (alert_tag e reason id).
Proof.
  intro g. unfold alert_tag.
  destruct (eq_str reason "card not on duty"); [split; reflexivity |].
  apply silent_str_upper.
Qed.

(** ** Frames of the handlers *)

Lemma preserves_ALARMS_append (P : globals -> Prop) (t : string) :
  (forall g l, P g -> P (set_ALARMS l g)) -> preserves P (ALARMS_append t).
Proof.
  intros Hf g H. unfold ALARMS_append.
  destruct (ALARMS g); simpl; [apply Hf, H | exact H].
Qed.

Lemma ALARMS_append_None (t : string) (g : globals) :
  ALARMS g = None -> ALARMS_append t g = mkRun g [] (inl AttributeError).
Proof. intro H. unfold ALARMS_append. rewrite H. reflexivity. Qed.

Lemma ALARMS_append_Some (t : string) (g : globals) (l : list string) :
  ALARMS g = Some l ->
  ALARMS_append t g = mkRun (set_ALARMS (Some (l ++ [t])%list) g) [] (inr tt).
Proof. intro H. unfold ALARMS_append. rewrite H. reflexivity. Qed.

Lemma preserves_call_update_circuit (P : globals -> Prop) (lib : library)
    (scan_info : list (string * json)) :
  (forall g c, P g -> P (set_SENTRY_CIRCUIT c g)) ->
  preserves P (call_update_circuit lib scan_info).
Proof.
  intros Hf g H. unfold call_update_circuit.
  destruct (update_circuit lib (SENTRY_CIRCUIT g) scan_info) as [c err].
  simpl. apply Hf, H.
Qed.

Ltac silent_step :=
  first [ apply silent_json_loads | apply silent_values | apply silent_unpack2
        | apply silent_unpack4 | apply silent_unpack5 | apply silent_str_upper
        | apply silent_fromtimestamp_strftime | apply silent_alert_tag ].

(** Walks a handler statement by statement; an assignment to a global the
    property does not read is closed by conversion. *)
Ltac frame :=
  repeat first
    [ apply preserves_ret
    | apply preserves_raise
    | apply preserves_send
    | apply silent_preserves; silent_step
    | apply preserves_assign; intros ? ?; assumption
    | apply preserves_ALARMS_append; intros ? ? ?; assumption
    | apply preserves_call_update_circuit; intros ? ? ?; assumption
    | apply preserves_bind; [| intro]
    | match goal with
      | |- preserves _ (match ?x with _ => _ end) => destruct x
      end ].

Lemma on_overdue_scan_keeps_circuit (tp : topics) (lib : library) (e : env)
    (m : message) (c : option circuit) :
  preserves (fun g => SENTRY_CIRCUIT g = c) (on_overdue_scan tp lib e m).
Proof. unfold on_overdue_scan, raise_alarm. frame. Qed.

Lemma on_connected_keeps_circuit (m : message) (c : option circuit) :
  preserves (fun g => SENTRY_CIRCUIT g = c) (on_connected m).
Proof. unfold on_connected, match_client. frame. Qed.

Lemma ALARMS_append_keeps_None (t : string) :
  preserves (fun g => ALARMS g = None) (ALARMS_append t).
Proof. intros g H. rewrite (ALARMS_append_None t g H). exact H. Qed.

Lemma on_mqtt_message_keeps_None (tp : topics) (lib : library) (e : env)
    (m : message) :
  preserves (fun g => ALARMS g = None) (on_mqtt_message tp lib e m).
Proof.
  unfold on_mqtt_message, on_connected, on_overdue_scan, on_alerts, on_done,
    match_client, raise_alarm.
  repeat first [ apply ALARMS_append_keeps_None | progress frame ].
Qed.

(** Before any circuit has been selected [ALARMS] still holds [None]. *)
Lemma never_selected_ALARMS (tp : topics) (lib : library) (g : globals) :
  never_selected tp lib g -> ALARMS g = None.
Proof.
  induction 1 as [| g o _ IH Ho]; [reflexivity |].
  destruct o as [[c |] | | rc | e m |]; simpl in *;
    try discriminate; try exact IH.
  - unfold on_mqtt_connect. destruct (rc =? 0); exact IH.
  - apply on_mqtt_message_keeps_None, IH.
Qed.

(** ** Selecting and deselecting a circuit, silencing the alarm *)

(** C4, as amended: on a form submission that validates, [select_circuit]
    replaces the session whatever it was: the active flag, the circuit id,
    the circuit, the path frequencies, the start and end epochs, the
    completed flag and the alarm history are all overwritten from the stored
    circuit, and shift-on is published.  The alarm flag is not written: it
    keeps the value it had, as do the connection flags. *)
Theorem select_circuit_replaces_session (tp : topics) (c : Shift)
    (g : globals) :
  select_circuit tp (Some c) g
  = mkRun
      {| SHIFT_STATUS := true;
         CURRENT_CIRCUIT := Some (shift_id c);
         SENTRY_CIRCUIT := Some (shift_circuit c);
         CIRCUIT_COMPLETED := completed c;
         PATHS := Some (path_freqs c);
         START := shift_start c;
         END := shift_end c;
         ALARMS := alarms c;
         ALARM_TRIGGERED := ALARM_TRIGGERED g;
         CURRENT_SCANNED_SENTRY := CURRENT_SCANNED_SENTRY g;
         APP_CONNECTED := APP_CONNECTED g;
         HANDLER_CONNECTED := HANDLER_CONNECTED g;
         CHK_A_CONNECTED := CHK_A_CONNECTED g;
         CHK_B_CONNECTED := CHK_B_CONNECTED g;
         CHK_C_CONNECTED := CHK_C_CONNECTED g;
         CHK_D_CONNECTED := CHK_D_CONNECTED g |}
      [Publish (SHIFT_ON_OFF tp) "ON" 0; Flash "Shift set!" "success"]
      (inr (Redirect "view_current_route")).
Proof. reflexivity. Qed.

(** C4 fails as stated: with the alarm raised by an overdue event, selecting
    a circuit again leaves [ALARM_TRIGGERED] true. *)
Lemma select_circuit_keeps_raised_alarm :
  ALARM_TRIGGERED Sample.alarmed = true
  /\ ALARM_TRIGGERED
       (final (select_circuit Sample.tp (Some Sample.shift) Sample.alarmed))
     = true.
Proof. split; reflexivity. Qed.

(** A request that does not validate changes nothing. *)
Lemma select_circuit_not_submitted (tp : topics) (g : globals) :
  select_circuit tp None g = mkRun g [] (inr (Render "select-circuit.html")).
Proof. reflexivity. Qed.

(** C5, as amended: [deselect_circuit] sets the active flag to false, the
    circuit id and the circuit to none and the start and end epochs to 0,
    publishes shift-off, and leaves the alarm flag as it was. *)
Theorem deselect_circuit_clears_circuit (tp : topics) (g : globals) :
  let r := deselect_circuit tp g in
  SHIFT_STATUS (final r) = false
  /\ CURRENT_CIRCUIT (final r) = None
  /\ SENTRY_CIRCUIT (final r) = None
  /\ START (final r) = 0
  /\ END (final r) = 0
  /\ ALARM_TRIGGERED (final r) = ALARM_TRIGGERED g
  /\ outputs r
     = [Publish (SHIFT_ON_OFF tp) "OFF" 0; Flash "Shift Deselected." "info"]
  /\ result r = inr (Redirect "select_circuit").
Proof. cbv zeta. repeat split. Qed.

(** C5 fails as stated: after an overdue event has raised the alarm,
    [deselect_circuit] does not bring the alarm flag back to its initial
    value. *)
Lemma deselect_circuit_keeps_raised_alarm :
  ALARM_TRIGGERED initial_globals = false
  /\ ALARM_TRIGGERED (final (deselect_circuit Sample.tp Sample.alarmed))
     = true.
Proof. split; reflexivity. Qed.

(** C7: [silence_alarm] writes [ALARM_TRIGGERED = False] and nothing else,
    publishes alarm-off, and changes no global at all when the flag was
    already false. *)
Theorem silence_alarm_clears_flag_only (tp : topics) (g : globals) :
  silence_alarm tp g
  = mkRun
      {| SHIFT_STATUS := SHIFT_STATUS g;
         CURRENT_CIRCUIT := CURRENT_CIRCUIT g;
         SENTRY_CIRCUIT := SENTRY_CIRCUIT g;
         CIRCUIT_COMPLETED := CIRCUIT_COMPLETED g;
         PATHS := PATHS g;
         START := START g;
         END := END g;
         ALARMS := ALARMS g;
         ALARM_TRIGGERED := false;
         CURRENT_SCANNED_SENTRY := CURRENT_SCANNED_SENTRY g;
         APP_CONNECTED := APP_CONNECTED g;
         HANDLER_CONNECTED := HANDLER_CONNECTED g;
         CHK_A_CONNECTED := CHK_A_CONNECTED g;
         CHK_B_CONNECTED := CHK_B_CONNECTED g;
         CHK_C_CONNECTED := CHK_C_CONNECTED g;
         CHK_D_CONNECTED := CHK_D_CONNECTED g |}
      [Print "alarm silenced"; Publish (ALARM tp) "OFF" 2]
      (inr (Redirect "home"))
  /\ (ALARM_TRIGGERED g = false -> final (silence_alarm tp g) = g).
Proof.
  split; [reflexivity |].
  destruct g; simpl. intros ->. reflexivity.
Qed.

(** Silencing after an alarm keeps the history of the session. *)
Example silence_alarm_keeps_history :
  ALARMS (final (silence_alarm Sample.tp Sample.alarmed)) = Some ["08:31:07"]
  /\ ALARM_TRIGGERED (final (silence_alarm Sample.tp Sample.alarmed)) = false.
Proof. split; reflexivity. Qed.

Lemma no_session_initial : no_session initial_globals.
Proof. repeat split. Qed.

(** C8: a second [deselect_circuit] in a row is the first one again (same
    globals, same publication, same response); its globals are those with no
    session; and on globals with no session it changes nothing. *)
Theorem deselect_circuit_idempotent (tp : topics) (g : globals) :
  deselect_circuit tp (final (deselect_circuit tp g)) = deselect_circuit tp g
  /\ no_session (final (deselect_circuit tp g))
  /\ (no_session g -> final (deselect_circuit tp g) = g).
Proof.
  split; [reflexivity |]. split; [repeat split |].
  destruct g; unfold no_session; simpl.
  intros (-> & -> & -> & -> & ->). reflexivity.
Qed.

Example deselect_circuit_twice :
  final (deselect_circuit Sample.tp
           (final (deselect_circuit Sample.tp Sample.alarmed)))
  = final (deselect_circuit Sample.tp Sample.alarmed)
  /\ final (deselect_circuit Sample.tp initial_globals) = initial_globals.
Proof. split; reflexivity. Qed.

(** Runs the statements of a handler that only compute, from the payload
    down to the first one that depends on the globals. *)
Ltac run_prefix :=
  repeat first
    [ rewrite bind_ret_l
    | progress cbn [values dict_values dict_items option_map map snd fst
                    unpack2 unpack4 unpack5 str_upper] ].

(** ** Connectivity events *)

(** C9: a status event [{id, connected}] whose device name is none of the
    five known ones runs to its end, raises nothing, sends nothing and
    leaves every global, the connection flags among them, as it was. *)
Theorem unknown_device_ignored (tp : topics) (lib : library) (e : env)
    (m : message) (g : globals) (k1 k2 : string) (client connected : json) :
  last_segment (topic m) = "connected" ->
  payload m = Some (JObject [(k1, client); (k2, connected)]) ->
  known_device client = false ->
  on_mqtt_message tp lib e m g = mkRun g [] (inr tt).
Proof.
  intros Ht Hp Hk.
  unfold on_mqtt_message. rewrite Ht. simpl.
  unfold on_connected, json_loads. rewrite Hp. run_prefix.
  unfold known_device, device_names in Hk. simpl in Hk.
  repeat (apply orb_false_elim in Hk; destruct Hk as [?H Hk]).
  unfold match_client.
  repeat match goal with
         | H : eq_str client _ = false |- _ => rewrite H; clear H
         end.
  reflexivity.
Qed.

Lemma unknown_device_ignored_witness :
  on_mqtt_message Sample.tp Sample.lib Sample.world
    (Sample.status_event "checkpoint-E" true) Sample.alarmed
  = mkRun Sample.alarmed [] (inr tt).
Proof.
  apply (unknown_device_ignored Sample.tp Sample.lib Sample.world
           (Sample.status_event "checkpoint-E" true) Sample.alarmed
           "id" "connected" (JStr "checkpoint-E") (JBool true));
    reflexivity.
Defined.

(** ** Overdue events *)

(** C1, as amended: an overdue event, whether or not its card and checkpoint
    match a pending entry, leaves the circuit as it was, every entry with the
    status it had; the branch does not look the entry up. *)
Theorem overdue_event_keeps_circuit (tp : topics) (lib : library) (e : env)
    (m : message) (g : globals) :
  last_segment (topic m) = "overdue-scan" ->
  SENTRY_CIRCUIT (final (on_mqtt_message tp lib e m g)) = SENTRY_CIRCUIT g.
Proof.
  intro Ht. unfold on_mqtt_message. rewrite Ht. simpl.
  exact (on_overdue_scan_keeps_circuit tp lib e m (SENTRY_CIRCUIT g) g
           eq_refl).
Qed.

Lemma overdue_event_keeps_circuit_witness :
  SENTRY_CIRCUIT
    (final (on_mqtt_message Sample.tp Sample.lib Sample.world
              (Sample.overdue "04a1b2c3" "A" 1700000000) Sample.selected))
  = SENTRY_CIRCUIT Sample.selected.
Proof.
  apply (overdue_event_keeps_circuit Sample.tp Sample.lib Sample.world
           (Sample.overdue "04a1b2c3" "A" 1700000000) Sample.selected).
  reflexivity.
Defined.

(** C1 fails as stated: the first visit of the selected circuit is pending
    and is the one the overdue event names; the event is processed to its
    end, the alarm is raised, and the visit is still pending, not missed. *)
Lemma overdue_event_leaves_entry_pending :
  let r := on_mqtt_message Sample.tp Sample.lib Sample.world
             (Sample.overdue "04a1b2c3" "A" 1700000000) Sample.selected in
  option_map (map (fun x => (card x, checkpoint x, status_of x)))
    (SENTRY_CIRCUIT Sample.selected)
  = Some [("04a1b2c3", "A", pending); ("04a1b2c3", "B", pending);
          ("04a1b2c3", "C", pending)]
  /\ raised r = None
  /\ ALARM_TRIGGERED (final r) = true
  /\ option_map (map (fun x => (card x, checkpoint x, status_of x)))
       (SENTRY_CIRCUIT (final r))
     = Some [("04a1b2c3", "A", pending); ("04a1b2c3", "B", pending);
             ("04a1b2c3", "C", pending)].
Proof. vm_compute. repeat split. Qed.

Lemma overdue_event_inv (lib : library) (m : message) :
  overdue_event lib m = true ->
  exists k1 id k2 chk k3 time k4 checked n hms,
    last_segment (topic m) = "overdue-scan"
    /\ payload m
       = Some (JObject [(k1, JStr id); (k2, chk); (k3, time); (k4, checked)])
    /\ as_number time = Some n
    /\ fromtimestamp_hms lib n = inr hms.
Proof.
  unfold overdue_event. intro H.
  apply andb_prop in H. destruct H as [Ht H].
  apply String.eqb_eq in Ht.
  destruct (payload m) as [[| | | | | | items] |]; try discriminate.
  destruct items as [| [k1 v1] [| [k2 v2] [| [k3 v3] [| [k4 v4] [| ? ?]]]]];
    try discriminate; destruct v1; try discriminate.
  destruct (as_number v3) as [n |] eqn:Hn; try discriminate.
  destruct (fromtimestamp_hms lib n) as [x | hms] eqn:Hh; try discriminate.
  exists k1, s, k2, v2, k3, v3, k4, v4, n, hms. auto.
Qed.

(** The overdue branch on an event in good form, first with no alarm list
    loaded, then with one. *)
Lemma overdue_event_without_alarm_list (tp : topics) (lib : library)
    (e : env) (m : message) (g : globals) :
  ALARMS g = None ->
  overdue_event lib m = true ->
  on_mqtt_message tp lib e m g
  = mkRun (set_ALARM_TRIGGERED true g) [] (inl AttributeError).
Proof.
  intros Ha H.
  destruct (overdue_event_inv lib m H)
    as (k1 & id & k2 & chk & k3 & time & k4 & checked & n & hms
        & Ht & Hp & Hn & Hh).
  unfold on_mqtt_message. rewrite Ht. simpl.
  unfold on_overdue_scan, json_loads. rewrite Hp. run_prefix.
  unfold fromtimestamp_strftime. rewrite Hn, Hh. run_prefix.
  unfold raise_alarm. rewrite !bind_assoc, bind_assign.
  unfold bind. rewrite ALARMS_append_None by exact Ha. reflexivity.
Qed.

Lemma overdue_event_with_alarm_list (tp : topics) (lib : library)
    (e : env) (m : message) (g : globals) (history : list string) :
  ALARMS g = Some history ->
  overdue_event lib m = true ->
  exists text,
    on_mqtt_message tp lib e m g
    = mkRun
        (set_ALARMS (Some (history ++ [now e])%list)
           (set_ALARM_TRIGGERED true g))
        [Publish (ALARM tp) "ON" 2; Emit "alert-msgs" "alert-danger" text]
        (inr tt).
Proof.
  intros Ha H.
  destruct (overdue_event_inv lib m H)
    as (k1 & id & k2 & chk & k3 & time & k4 & checked & n & hms
        & Ht & Hp & Hn & Hh).
  eexists.
  unfold on_mqtt_message. rewrite Ht. simpl.
  unfold on_overdue_scan, json_loads. rewrite Hp. run_prefix.
  unfold fromtimestamp_strftime. rewrite Hn, Hh. run_prefix.
  unfold raise_alarm. rewrite !bind_assoc, bind_assign.
  unfold bind.
  rewrite (ALARMS_append_Some (now e) (set_ALARM_TRIGGERED true g) history)
    by exact Ha.
  reflexivity.
Qed.

(** C6 does not hold of the code: delivered before any circuit has been
    selected, an overdue event in good form sets the alarm flag and then
    raises [AttributeError] at [ALARMS.append]; no history entry is added,
    alarm-on is not published and nothing is pushed. *)
Theorem overdue_event_on_load_raises :
  overdue_event Sample.lib (Sample.overdue "04a1b2c3" "A" 1700000000) = true
  /\ on_mqtt_message Sample.tp Sample.lib Sample.world
       (Sample.overdue "04a1b2c3" "A" 1700000000) initial_globals
     = mkRun (set_ALARM_TRIGGERED true initial_globals) []
         (inl AttributeError).
Proof. split; reflexivity. Qed.

(** ** Scan results *)

Lemma in_cards_false (v : json) (rows : list Card) : in_cards v rows = false.
Proof. induction rows as [| c rows IH]; [reflexivity | exact IH]. Qed.

(** The tag for ["card not on duty"] is the same whatever the card table
    holds. *)
Lemma alert_tag_card_not_on_duty (e : env) (id : json) (g : globals) :
  alert_tag e (JStr "card not on duty") id g = ret "UNKNOWN CARD" g.
Proof.
  unfold alert_tag. cbn [eq_str].
  rewrite (proj2 (String.eqb_eq _ _) eq_refl).
  rewrite in_cards_false. reflexivity.
Qed.

Lemma alert_tag_str (e : env) (reason : string) (id : json) :
  exists tag, forall g, alert_tag e (JStr reason) id g = ret tag g.
Proof.
  unfold alert_tag. cbn [eq_str str_upper].
  destruct (reason =? "card not on duty")%string; eexists; reflexivity.
Qed.

(** C2 does not hold of the code: the card identifier is the [rfid_id] of a
    registered card, the reason is ["card not on duty"], and the alert that
    is pushed is tagged UNKNOWN CARD, not STOLEN CARD. *)
Theorem registered_card_tagged_unknown :
  card_registered "04d4e5f6" (cards Sample.world) = true
  /\ on_mqtt_message Sample.tp Sample.lib Sample.world
       (Sample.scan false "card not on duty" "04d4e5f6" "B" 1700000650)
       Sample.selected
     = mkRun
         (set_ALARMS (Some ["08:31:07"])
            (set_ALARM_TRIGGERED true Sample.selected))
         [Publish (ALARM Sample.tp) "ON" 2;
          Emit "alert-msgs" "alert-danger"
            "<strong>UNKNOWN CARD!</strong> Sentry with card ID: 04D4E5F6 checked in at checkpoint B at 1700000650."]
         (inr tt).
Proof. split; reflexivity. Qed.

(** A card that is in no row of the table gets the same tag. *)
Example unregistered_card_tagged_unknown :
  card_registered "04ffffff" (cards Sample.world) = false
  /\ outputs
       (on_mqtt_message Sample.tp Sample.lib Sample.world
          (Sample.scan false "card not on duty" "04ffffff" "B" 1700000650)
          Sample.selected)
     = [Publish (ALARM Sample.tp) "ON" 2;
        Emit "alert-msgs" "alert-danger"
          "<strong>UNKNOWN CARD!</strong> Sentry with card ID: 04FFFFFF checked in at checkpoint B at 1700000650."].
Proof. split; reflexivity. Qed.

(** Any other reason is shown in upper case. *)
Example other_reason_upper_cased :
  outputs
    (on_mqtt_message Sample.tp Sample.lib Sample.world
       (Sample.scan false "wrong checkpoint" "04a1b2c3" "C" 1700000650)
       Sample.selected)
  = [Publish (ALARM Sample.tp) "ON" 2;
     Emit "alert-msgs" "alert-danger"
       "<strong>WRONG CHECKPOINT!</strong> Sentry with card ID: 04A1B2C3 checked in at checkpoint C at 1700000650."].
Proof. reflexivity. Qed.

Lemma invalid_scan_event_inv (tp : topics) (m : message) :
  invalid_scan_event tp m = true ->
  exists k1 valid k2 reason k3 id k4 chk k5 time,
    arm_of tp m = Alerts
    /\ payload m
       = Some (JObject [(k1, valid); (k2, JStr reason); (k3, id); (k4, chk);
                        (k5, time)])
    /\ truthy valid = false.
Proof.
  unfold invalid_scan_event, arm_of. intro H.
  repeat (apply andb_prop in H; destruct H as [H ?H]).
  apply negb_true_iff in H, H2.
  rewrite H, H2, H1.
  destruct (payload m) as [[| | | | | | items] |]; try discriminate.
  destruct items
    as [| [k1 v1] [| [k2 v2] [| [k3 v3] [| [k4 v4] [| [k5 v5] [| ? ?]]]]]];
    try discriminate; destruct v2; try discriminate.
  apply negb_true_iff in H0.
  exists k1, v1, k2, s, k3, v3, k4, v4, k5, v5. auto.
Qed.

Lemma on_mqtt_message_arm (tp : topics) (lib : library) (e : env)
    (m : message) :
  on_mqtt_message tp lib e m
  = match arm_of tp m with
    | Connected => on_connected m
    | OverdueScan => on_overdue_scan tp lib e m
    | Alerts => on_alerts tp lib e m
    | Done => on_done tp
    | Unhandled => ret tt
    end.
Proof.
  unfold on_mqtt_message, arm_of.
  repeat match goal with
         | |- context [if ?b then _ else _] => destruct b
         end; reflexivity.
Qed.

Lemma invalid_scan_without_alarm_list (tp : topics) (lib : library)
    (e : env) (m : message) (g : globals) :
  ALARMS g = None ->
  invalid_scan_event tp m = true ->
  on_mqtt_message tp lib e m g
  = mkRun (set_ALARM_TRIGGERED true g) [] (inl AttributeError).
Proof.
  intros Ha H.
  destruct (invalid_scan_event_inv tp m H)
    as (k1 & valid & k2 & reason & k3 & id & k4 & chk & k5 & time
        & Harm & Hp & Hv).
  rewrite on_mqtt_message_arm, Harm.
  unfold on_alerts, json_loads. rewrite Hp. run_prefix. rewrite Hv.
  destruct (alert_tag_str e reason id) as [tag Htag].
  unfold bind at 1. rewrite Htag. cbn [ret result final outputs].
  unfold raise_alarm. rewrite !bind_assoc, bind_assign.
  unfold bind. rewrite ALARMS_append_None by exact Ha. reflexivity.
Qed.

(** C10: before any circuit has ever been selected, an overdue event or a
    scan result reported invalid (either in good form) sets
    [ALARM_TRIGGERED], raises [AttributeError] at [ALARMS.append], and ends
    there: nothing is published, nothing is pushed, no other global is
    written, and the flag stays set. *)
Theorem alarm_event_before_selection (tp : topics) (lib : library) (e : env)
    (m : message) (g : globals) :
  never_selected tp lib g ->
  overdue_event lib m = true \/ invalid_scan_event tp m = true ->
  ALARMS g = None
  /\ on_mqtt_message tp lib e m g
     = mkRun (set_ALARM_TRIGGERED true g) [] (inl AttributeError)
  /\ ALARM_TRIGGERED (final (on_mqtt_message tp lib e m g)) = true.
Proof.
  intros Hg Hm.
  pose proof (never_selected_ALARMS tp lib g Hg) as Ha.
  assert (Hrun : on_mqtt_message tp lib e m g
                 = mkRun (set_ALARM_TRIGGERED true g) []
                     (inl AttributeError)).
  { destruct Hm as [Hm | Hm].
    - apply overdue_event_without_alarm_list; assumption.
    - apply invalid_scan_without_alarm_list; assumption. }
  split; [exact Ha |]. split; [exact Hrun |].
  rewrite Hrun. reflexivity.
Qed.

Lemma alarm_event_before_selection_witness :
  let g := exec Sample.tp Sample.lib
             [MqttConnect 0;
              MqttMessage Sample.world (Sample.status_event "checkpoint-A" true);
              DeselectCircuit]
             initial_globals in
  let m := Sample.scan false "card not on duty" "04d4e5f6" "B" 1700000650 in
  ALARMS g = None
  /\ on_mqtt_message Sample.tp Sample.lib Sample.world m g
     = mkRun (set_ALARM_TRIGGERED true g) [] (inl AttributeError)
  /\ ALARM_TRIGGERED
       (final (on_mqtt_message Sample.tp Sample.lib Sample.world m g))
     = true.
Proof.
  apply (alarm_event_before_selection Sample.tp Sample.lib Sample.world).
  - apply (never_selected_step Sample.tp Sample.lib _ DeselectCircuit);
      [| reflexivity].
    apply (never_selected_step Sample.tp Sample.lib _
             (MqttMessage Sample.world
                (Sample.status_event "checkpoint-A" true)));
      [| reflexivity].
    apply (never_selected_step Sample.tp Sample.lib _ (MqttConnect 0));
      [| reflexivity].
    apply never_selected_start.
  - right. reflexivity.
Defined.

(** ** Malformed payloads *)

Lemma unpack2_wrong_length (l : list json) (g : globals) :
  Nat.eqb (length l) 2 = false -> unpack2 l g = raise ValueError g.
Proof.
  destruct l as [| a [| b [| c l]]]; simpl; intro H;
    try reflexivity; discriminate.
Qed.

Lemma unpack4_wrong_length (l : list json) (g : globals) :
  Nat.eqb (length l) 4 = false -> unpack4 l g = raise ValueError g.
Proof.
  destruct l as [| a [| b [| c [| d [| e l]]]]]; simpl; intro H;
    try reflexivity; discriminate.
Qed.

Lemma unpack5_wrong_length (l : list json) (g : globals) :
  Nat.eqb (length l) 5 = false -> unpack5 l g = raise ValueError g.
Proof.
  destruct l as [| a [| b [| c [| d [| e [| f l]]]]]]; simpl; intro H;
    try reflexivity; discriminate.
Qed.

(** Decoding and unpacking stop a handler on a payload without its fields,
    whatever the handler goes on with. *)
Lemma decode_shape_error {A B : Type} (n : nat) (m : message)
    (unpack : list json -> M A) (k : json -> A -> M B) (g : globals)
    (x : exn) :
  (forall l g, Nat.eqb (length l) n = false ->
               unpack l g = raise ValueError g) ->
  shape_error n m = Some x ->
  bind (json_loads m)
    (fun p => bind (values p) (fun l => bind (unpack l) (k p))) g
  = mkRun g [] (inl x).
Proof.
  intros Hu. unfold shape_error, json_loads.
  destruct (payload m) as [v |]; [| intros [= <-]; reflexivity].
  rewrite bind_ret_l. unfold values.
  destruct (dict_values v) as [l |]; [| intros [= <-]; reflexivity].
  rewrite bind_ret_l.
  destruct (Nat.eqb (length l) n) eqn:Hl; [discriminate |].
  intros [= <-]. unfold bind. rewrite (Hu l g Hl). reflexivity.
Qed.

Lemma shape_error_None (n : nat) (m : message) :
  shape_error n m = None ->
  exists items,
    payload m = Some (JObject items) /\ length items = n.
Proof.
  unfold shape_error.
  destruct (payload m) as [[| | | | | | items] |]; try discriminate.
  cbn [dict_values dict_items option_map].
  rewrite length_map.
  destruct (Nat.eqb (length items) n) eqn:Hl; [| discriminate].
  intros _. exists items. split; [reflexivity |].
  apply Nat.eqb_eq, Hl.
Qed.

Lemma on_overdue_scan_wrong_types (tp : topics) (lib : library) (e : env)
    (m : message) (g : globals) (x : exn) :
  shape_error 4 m = None ->
  overdue_wrong_types lib (payload_values m) = Some x ->
  on_overdue_scan tp lib e m g = mkRun g [] (inl x).
Proof.
  intros Hs. destruct (shape_error_None 4 m Hs) as (items & Hp & Hl).
  unfold payload_values. rewrite Hp.
  destruct items as [| [k1 id] [| [k2 chk] [| [k3 time] [| [k4 c] [| ? ?]]]]];
    try discriminate.
  cbn [map snd overdue_wrong_types].
  unfold on_overdue_scan, json_loads. rewrite Hp. run_prefix.
  unfold fromtimestamp_strftime.
  destruct (as_number time) as [n |]; [| intros [= <-]; reflexivity].
  destruct (fromtimestamp_hms lib n) as [y | hms];
    [intros [= <-]; reflexivity |].
  rewrite bind_ret_l.
  destruct id; intros [= <-]; reflexivity.
Qed.

Lemma on_alerts_wrong_types (tp : topics) (lib : library) (e : env)
    (m : message) (g : globals) (x : exn) :
  shape_error 5 m = None ->
  scan_wrong_types (payload_values m) = Some x ->
  on_alerts tp lib e m g = mkRun g [] (inl x).
Proof.
  intros Hs. destruct (shape_error_None 5 m Hs) as (items & Hp & Hl).
  unfold payload_values. rewrite Hp.
  destruct items
    as [| [k1 valid] [| [k2 reason] [| [k3 id] [| [k4 chk] [| [k5 time]
        [| ? ?]]]]]];
    try discriminate.
  cbn [map snd scan_wrong_types].
  unfold on_alerts, json_loads. rewrite Hp. run_prefix.
  destruct (truthy valid); [discriminate |].
  unfold alert_tag.
  destruct reason; intros [= <-]; reflexivity.
Qed.

(** C3, as amended: a payload that is malformed (it does not decode, is not
    an object, has another number of fields than its topic's, or has a time,
    an id or a reason of a wrong type as [malformed] says) is not dropped:
    the handler raises the exception Python answers it with.  It raises
    before its first write: every global is as it was, and nothing has been
    published or pushed. *)
Theorem malformed_payload_raises_before_writing (tp : topics) (lib : library)
    (e : env) (m : message) (g : globals) (x : exn) :
  malformed tp lib m = Some x ->
  on_mqtt_message tp lib e m g = mkRun g [] (inl x).
Proof.
  unfold malformed, missing_fields, wrong_types.
  rewrite on_mqtt_message_arm.
  destruct (arm_of tp m); cbn [fields_expected]; try discriminate.
  - destruct (shape_error 2 m) as [y |] eqn:Hs; [| discriminate].
    intros [= <-].
    apply (decode_shape_error 2 m unpack2); [exact unpack2_wrong_length|].
    exact Hs.
  - destruct (shape_error 4 m) as [y |] eqn:Hs.
    + intros [= <-].
      apply (decode_shape_error 4 m unpack4); [exact unpack4_wrong_length|].
      exact Hs.
    + apply on_overdue_scan_wrong_types, Hs.
  - destruct (shape_error 5 m) as [y |] eqn:Hs.
    + intros [= <-].
      apply (decode_shape_error 5 m unpack5); [exact unpack5_wrong_length|].
      exact Hs.
    + apply on_alerts_wrong_types, Hs.
Qed.

Lemma malformed_payload_raises_before_writing_witness :
  on_mqtt_message Sample.tp Sample.lib Sample.world
    {| topic := ALERTS Sample.tp;
       payload := Some (JObject [("valid", JBool false); ("reason", JNull);
                                 ("id", JStr "04a1b2c3");
                                 ("checkpoint", JStr "A");
                                 ("time", JInt 1700000650)]) |}
    Sample.selected
  = mkRun Sample.selected [] (inl AttributeError).
Proof.
  apply (malformed_payload_raises_before_writing Sample.tp Sample.lib).
  reflexivity.
Defined.

(** C3 fails as stated: an overdue event without its [time] and [checked]
    fields makes the handler raise [ValueError]. *)
Lemma truncated_overdue_event_raises :
  missing_fields Sample.tp Sample.truncated_overdue = Some ValueError
  /\ raised
       (on_mqtt_message Sample.tp Sample.lib Sample.world
          Sample.truncated_overdue Sample.selected)
     = Some ValueError.
Proof. split; reflexivity. Qed.

(** A scan result whose id is not a string raises too, after the alarm has
    been raised in full and before the push. *)
Example numeric_id_raises_after_alarm :
  let r := on_mqtt_message Sample.tp Sample.lib Sample.world
             {| topic := ALERTS Sample.tp;
                payload :=
                  Some (JObject [("valid", JBool false);
                                 ("reason", JStr "wrong checkpoint");
                                 ("id", JInt 42); ("checkpoint", JStr "A");
                                 ("time", JInt 1700000650)]) |}
             Sample.selected in
  r = mkRun
        (set_ALARMS (Some ["08:31:07"])
           (set_ALARM_TRIGGERED true Sample.selected))
        [Publish (ALARM Sample.tp) "ON" 2]
        (inl AttributeError).
Proof. reflexivity. Qed.

(** * Further properties *)

(** ** Every way a message can be handled *)

Lemma bind_silent {A B : Type} (m : M A) (k : A -> M B) (g : globals) :
  silent m ->
  bind m k g
  = match result (m g) with
    | inl x => mkRun g [] (inl x)
    | inr a => k a g
    end.
Proof.
  intro Hs. unfold bind. destruct (Hs g) as [Hf Ho]. rewrite Hf, Ho.
  destruct (result (m g)) as [x | a]; [reflexivity |].
  destruct (k a g); reflexivity.
Qed.

Lemma raise_alarm_run (tp : topics) (e : env) (g : globals) :
  raise_alarm tp e g
  = match ALARMS g with
    | Some history =>
        mkRun (alarm_recorded e history g) [Publish (ALARM tp) "ON" 2]
          (inr tt)
    | None => mkRun (set_ALARM_TRIGGERED true g) [] (inl AttributeError)
    end.
Proof.
  unfold raise_alarm. rewrite bind_assign. unfold bind, ALARMS_append.
  change (ALARMS (set_ALARM_TRIGGERED true g)) with (ALARMS g).
  destruct (ALARMS g); reflexivity.
Qed.

(** Steps over the statements of a handler that only compute: each either
    raises with nothing written or hands its value on. *)
Ltac walk :=
  repeat (rewrite bind_silent by silent_step;
          match goal with
          | |- context [match result ?r with _ => _ end] =>
              destruct (result r); [apply run_rejected |]
          end).

Lemma on_connected_run (tp : topics) (e : env) (m : message) (g : globals) :
  message_run tp e g (on_connected m g).
Proof.
  unfold on_connected. walk.
  match goal with p : (json * json)%type |- _ => destruct p as [client b] end.
  unfold match_client, device_writes.
  repeat match goal with
         | |- context [if ?c then _ else _] => destruct c
         end;
    first [ apply run_ignored | apply run_device; simpl; tauto ].
Qed.

Lemma on_overdue_scan_run (tp : topics) (lib : library) (e : env)
    (m : message) (g : globals) :
  message_run tp e g (on_overdue_scan tp lib e m g).
Proof.
  unfold on_overdue_scan. walk.
  match goal with
  | p : (json * json * json * json)%type |- _ =>
      destruct p as [[[id chk] time] checked]
  end.
  walk. unfold bind. rewrite raise_alarm_run.
  destruct (ALARMS g) as [history |] eqn:Ha; cbn.
  - apply run_alarm, Ha.
  - apply run_alarm_unrecorded, Ha.
Qed.

Lemma on_alerts_run (tp : topics) (lib : library) (e : env) (m : message)
    (g : globals) :
  message_run tp e g (on_alerts tp lib e m g).
Proof.
  unfold on_alerts.
  rewrite bind_silent by silent_step.
  destruct (result (json_loads m g)) as [x | p]; [apply run_rejected |].
  walk.
  match goal with
  | q : (json * json * json * json * json)%type |- _ =>
      destruct q as [[[[valid reason] id] chk] time]
  end.
  destruct (truthy valid).
  - unfold bind at 1. unfold call_update_circuit.
    destruct (update_circuit lib (SENTRY_CIRCUIT g) _) as [c [x |]]; cbn.
    + apply run_scan_failed.
    + destruct id; cbn;
        first [ apply run_scan_failed | apply run_scan_confirmed ].
  - walk. unfold bind at 1. rewrite raise_alarm_run.
    destruct (ALARMS g) as [history |] eqn:Ha; cbn.
    + destruct id; cbn;
        first [ apply run_alarm_unpushed, Ha | apply run_alarm, Ha ].
    + apply run_alarm_unrecorded, Ha.
Qed.

Lemma on_mqtt_message_run (tp : topics) (lib : library) (e : env)
    (m : message) (g : globals) :
  message_run tp e g (on_mqtt_message tp lib e m g).
Proof.
  rewrite on_mqtt_message_arm. destruct (arm_of tp m).
  - apply on_connected_run.
  - apply on_overdue_scan_run.
  - apply on_alerts_run.
  - apply run_done.
  - apply run_ignored.
Qed.


(** X2: alarm-on is published only by a run that has recorded the alarm: the
    flag is set and the history is the former one with the current time
    appended. *)
Theorem alarm_on_only_with_record (tp : topics) (lib : library) (e : env)
    (m : message) (g : globals) :
  In (Publish (ALARM tp) "ON" 2) (outputs (on_mqtt_message tp lib e m g)) ->
  exists history,
    ALARMS g = Some history
    /\ final (on_mqtt_message tp lib e m g) = alarm_recorded e history g.
Proof.
  destruct (on_mqtt_message_run tp lib e m g); cbn [outputs final In];
    intro Hin;
    repeat match goal with
           | H : _ \/ _ |- _ => destruct H
           | H : False |- _ => destruct H
           end;
    try discriminate; eauto.
Qed.

Lemma alarm_on_only_with_record_witness :
  exists history,
    ALARMS Sample.selected = Some history
    /\ final (on_mqtt_message Sample.tp Sample.lib Sample.world
                (Sample.overdue "04a1b2c3" "A" 1700000000) Sample.selected)
       = alarm_recorded Sample.world history Sample.selected.
Proof.
  apply (alarm_on_only_with_record Sample.tp Sample.lib Sample.world
           (Sample.overdue "04a1b2c3" "A" 1700000000) Sample.selected).
  left. reflexivity.
Defined.

(** X3: a run that raises has pushed nothing to the viewers, and a run
    publishes at most once. *)
Theorem raised_run_pushed_nothing (tp : topics) (lib : library) (e : env)
    (m : message) (g : globals) :
  (length (filter publishes (outputs (on_mqtt_message tp lib e m g))) <= 1)%nat
  /\ (forall x, raised (on_mqtt_message tp lib e m g) = Some x ->
                existsb pushes (outputs (on_mqtt_message tp lib e m g))
                = false).
Proof.
  destruct (on_mqtt_message_run tp lib e m g);
    cbn; split; try lia; intros; try reflexivity; discriminate.
Qed.

(** ** What every history keeps *)

Lemma exec_invariant (tp : topics) (lib : library) (P : globals -> Prop)
    (allowed : op -> bool) :
  (forall o g, allowed o = true -> P g -> P (step tp lib o g)) ->
  forall ops g,
    forallb allowed ops = true -> P g -> P (exec tp lib ops g).
Proof.
  intros Hstep ops. unfold exec.
  induction ops as [| o ops IH]; intros g Hall Hg; [exact Hg |].
  simpl in Hall. apply andb_prop in Hall. destruct Hall as [Ho Hall].
  simpl. apply IH; [exact Hall |]. apply Hstep; assumption.
Qed.

Ltac device_cases H :=
  unfold device_writes in H; simpl in H;
  repeat match type of H with
         | _ \/ _ => destruct H as [H | H]
         end;
  [subst .. | destruct H].

Lemma message_run_selection (tp : topics) (e : env) (g : globals)
    (r : run unit) :
  message_run tp e g r ->
  CURRENT_CIRCUIT (final r) = CURRENT_CIRCUIT g
  /\ PATHS (final r) = PATHS g
  /\ START (final r) = START g
  /\ END (final r) = END g
  /\ APP_CONNECTED (final r) = APP_CONNECTED g.
Proof.
  destruct 1 as [| | write b Hw | | | | | |];
    try (cbn; repeat split; reflexivity).
  device_cases Hw; cbn; repeat split; reflexivity.
Qed.

Lemma message_run_alarm_flag (tp : topics) (e : env) (g : globals)
    (r : run unit) :
  message_run tp e g r ->
  ALARM_TRIGGERED g = true -> ALARM_TRIGGERED (final r) = true.
Proof.
  destruct 1 as [| | write b Hw | | | | | |]; intro Hg;
    try (cbn; first [exact Hg | reflexivity]).
  device_cases Hw; exact Hg.
Qed.

Lemma message_run_completed (tp : topics) (e : env) (g : globals)
    (r : run unit) :
  message_run tp e g r ->
  CIRCUIT_COMPLETED g = true -> CIRCUIT_COMPLETED (final r) = true.
Proof.
  destruct 1 as [| | write b Hw | | | | | |]; intro Hg;
    try (cbn; first [exact Hg | reflexivity]).
  device_cases Hw; exact Hg.
Qed.

Lemma message_run_history (tp : topics) (e : env) (g : globals)
    (r : run unit) (history : list string) :
  message_run tp e g r ->
  ALARMS g = Some history ->
  ALARMS (final r) = Some history
  \/ ALARMS (final r) = Some (history ++ [now e])%list.
Proof.
  destruct 1 as [| | write b Hw | | | | h Hh | h t Hh |]; intro Hg;
    try (left; exact Hg).
  - device_cases Hw; left; exact Hg.
  - right. cbn. congruence.
  - right. cbn. congruence.
Qed.

(** X4: no entry point ever resets [APP_CONNECTED]: once the application
    has connected to the broker the flag stays true through every history,
    a later refused connection included. *)
Theorem app_connected_never_reset (tp : topics) (lib : library)
    (ops : list op) (g : globals) :
  APP_CONNECTED g = true -> APP_CONNECTED (exec tp lib ops g) = true.
Proof.
  intro Hg.
  apply (exec_invariant tp lib (fun g => APP_CONNECTED g = true)
           (fun _ => true)); [| apply forallb_forall; reflexivity | exact Hg].
  clear. intros o g _ Hg.
  destruct o as [[c |] | | rc | e m |]; simpl; try exact Hg.
  - unfold on_mqtt_connect. destruct (rc =? 0); [reflexivity | exact Hg].
  - destruct (message_run_selection tp e g _ (on_mqtt_message_run tp lib e m g))
      as (_ & _ & _ & _ & ->).
    exact Hg.
Qed.

Lemma app_connected_never_reset_witness :
  APP_CONNECTED
    (exec Sample.tp Sample.lib
       [MqttConnect 5; SelectCircuit (Some Sample.shift);
        MqttMessage Sample.world Sample.truncated_overdue; DeselectCircuit]
       (exec Sample.tp Sample.lib [MqttConnect 0] initial_globals))
  = true.
Proof.
  apply (app_connected_never_reset Sample.tp Sample.lib). reflexivity.
Defined.

(** X5: the alarm flag is cleared by [silence_alarm] and by nothing else:
    through a history without a silence event, selections and deselections
    included, a raised alarm stays raised. *)
Theorem alarm_stays_until_silenced (tp : topics) (lib : library)
    (ops : list op) (g : globals) :
  forallb (fun o => negb (silences o)) ops = true ->
  ALARM_TRIGGERED g = true ->
  ALARM_TRIGGERED (exec tp lib ops g) = true.
Proof.
  apply (exec_invariant tp lib (fun g => ALARM_TRIGGERED g = true)).
  clear. intros o g Ho Hg.
  destruct o as [[c |] | | rc | e m |]; simpl in *;
    try discriminate; try exact Hg.
  - unfold on_mqtt_connect. destruct (rc =? 0); exact Hg.
  - exact (message_run_alarm_flag tp e g _
             (on_mqtt_message_run tp lib e m g) Hg).
Qed.

Lemma alarm_stays_until_silenced_witness :
  ALARM_TRIGGERED
    (exec Sample.tp Sample.lib
       [DeselectCircuit; SelectCircuit (Some Sample.shift);
        MqttMessage Sample.world (Sample.scan true "" "04a1b2c3" "B" 1700000650);
        MqttMessage Sample.world
          {| topic := DONE Sample.tp; payload := None |}]
       Sample.alarmed)
  = true.
Proof.
  apply (alarm_stays_until_silenced Sample.tp Sample.lib); reflexivity.
Defined.

Lemma step_history (tp : topics) (lib : library) (o : op) (g : globals)
    (history : list string) :
  selects o = false ->
  ALARMS g = Some history ->
  exists suffix,
    ALARMS (step tp lib o g) = Some (history ++ suffix)%list
    /\ (length suffix <= 1)%nat.
Proof.
  intros Ho Hg.
  destruct o as [[c |] | | rc | e m |]; simpl in *; try discriminate;
    try (exists []; rewrite app_nil_r; split; [exact Hg | simpl; lia]).
  - exists []. rewrite app_nil_r. split; [| simpl; lia].
    unfold on_mqtt_connect. destruct (rc =? 0); exact Hg.
  - destruct (message_run_history tp e g _ history
                (on_mqtt_message_run tp lib e m g) Hg) as [H | H].
    + exists []. rewrite app_nil_r. split; [exact H | simpl; lia].
    + exists [now e]. split; [exact H | simpl; lia].
Qed.

(** X6: between two selections the alarm history only grows at its end:
    through a history without a validated selection the former entries stay
    in place, in order, and at most one entry is added per step. *)
Theorem alarm_history_append_only (tp : topics) (lib : library)
    (ops : list op) (g : globals) (history : list string) :
  forallb (fun o => negb (selects o)) ops = true ->
  ALARMS g = Some history ->
  exists suffix,
    ALARMS (exec tp lib ops g) = Some (history ++ suffix)%list
    /\ (length suffix <= length ops)%nat.
Proof.
  unfold exec. revert g history.
  induction ops as [| o ops IH]; intros g history Hall Hg.
  - exists []. rewrite app_nil_r. split; [exact Hg | simpl; lia].
  - simpl in Hall. apply andb_prop in Hall. destruct Hall as [Ho Hall].
    apply negb_true_iff in Ho.
    destruct (step_history tp lib o g history Ho Hg) as (s1 & H1 & L1).
    destruct (IH (step tp lib o g) (history ++ s1)%list Hall H1)
      as (s2 & H2 & L2).
    exists (s1 ++ s2)%list. simpl. rewrite H2, app_assoc.
    split; [reflexivity |]. rewrite length_app. lia.
Qed.

Lemma alarm_history_append_only_witness :
  exists suffix,
    ALARMS
      (exec Sample.tp Sample.lib
         [SilenceAlarm;
          MqttMessage Sample.world
            (Sample.scan false "wrong checkpoint" "04a1b2c3" "C" 1700000650);
          DeselectCircuit]
         Sample.alarmed)
    = Some (["08:31:07"] ++ suffix)%list
    /\ (length suffix <= 3)%nat.
Proof.
  apply (alarm_history_append_only Sample.tp Sample.lib
           [SilenceAlarm;
            MqttMessage Sample.world
              (Sample.scan false "wrong checkpoint" "04a1b2c3" "C" 1700000650);
            DeselectCircuit]
           Sample.alarmed ["08:31:07"]); reflexivity.
Defined.

(** X7: once the shift is reported complete it stays complete until the
    next validated selection; deselecting does not reset the flag. *)
Theorem completed_until_next_selection (tp : topics) (lib : library)
    (ops : list op) (g : globals) :
  forallb (fun o => negb (selects o)) ops = true ->
  CIRCUIT_COMPLETED g = true ->
  CIRCUIT_COMPLETED (exec tp lib ops g) = true.
Proof.
  apply (exec_invariant tp lib (fun g => CIRCUIT_COMPLETED g = true)).
  clear. intros o g Ho Hg.
  destruct o as [[c |] | | rc | e m |]; simpl in *;
    try discriminate; try exact Hg.
  - unfold on_mqtt_connect. destruct (rc =? 0); exact Hg.
  - exact (message_run_completed tp e g _
             (on_mqtt_message_run tp lib e m g) Hg).
Qed.

Lemma completed_until_next_selection_witness :
  CIRCUIT_COMPLETED
    (exec Sample.tp Sample.lib
       [DeselectCircuit; SilenceAlarm;
        MqttMessage Sample.world (Sample.overdue "04a1b2c3" "A" 1700000000)]
       (exec Sample.tp Sample.lib
          [MqttMessage Sample.world
             {| topic := DONE Sample.tp; payload := None |}]
          Sample.selected))
  = true.
Proof.
  apply (completed_until_next_selection Sample.tp Sample.lib); reflexivity.
Defined.

(** X8: which circuit is selected, its path frequencies and its start and
    end epochs are changed by the select and deselect routes only: bus
    messages of any kind, broker connections and silence events leave them
    as they are. *)
Theorem selection_changed_only_by_routes (tp : topics) (lib : library)
    (ops : list op) (g : globals) :
  forallb (fun o => negb (selects o) && negb (deselects o)) ops = true ->
  CURRENT_CIRCUIT (exec tp lib ops g) = CURRENT_CIRCUIT g
  /\ PATHS (exec tp lib ops g) = PATHS g
  /\ START (exec tp lib ops g) = START g
  /\ END (exec tp lib ops g) = END g.
Proof.
  intro Hall.
  apply (exec_invariant tp lib
           (fun g' => CURRENT_CIRCUIT g' = CURRENT_CIRCUIT g
                      /\ PATHS g' = PATHS g
                      /\ START g' = START g
                      /\ END g' = END g)
           (fun o => negb (selects o) && negb (deselects o)));
    [| exact Hall | repeat split].
  clear. intros o g' Ho Hg.
  destruct o as [[c |] | | rc | e m |]; simpl in *;
    try discriminate; try exact Hg.
  - unfold on_mqtt_connect. destruct (rc =? 0); exact Hg.
  - destruct (message_run_selection tp e g' _
                (on_mqtt_message_run tp lib e m g'))
      as (-> & -> & -> & -> & _).
    exact Hg.
Qed.

Lemma selection_changed_only_by_routes_witness :
  let g := exec Sample.tp Sample.lib
             [MqttMessage Sample.world (Sample.scan true "" "04a1b2c3" "B" 1700000650);
              MqttMessage Sample.world
                {| topic := DONE Sample.tp; payload := None |};
              SilenceAlarm]
             Sample.selected in
  CURRENT_CIRCUIT g = CURRENT_CIRCUIT Sample.selected
  /\ PATHS g = PATHS Sample.selected
  /\ START g = START Sample.selected
  /\ END g = END Sample.selected.
Proof.
  apply (selection_changed_only_by_routes Sample.tp Sample.lib); reflexivity.
Defined.

(** ** Status events *)

Lemma on_connected_cases (m : message) (g : globals) :
  (exists x, on_connected m g = mkRun g [] (inl x))
  \/ on_connected m g = mkRun g [] (inr tt)
  \/ (exists write b,
        In write device_writes
        /\ on_connected m g = mkRun (write b g) [] (inr tt)).
Proof.
  unfold on_connected.
  repeat (rewrite bind_silent by silent_step;
          match goal with
          | |- context [match result ?r with _ => _ end] =>
              destruct (result r); [left; eexists; reflexivity |]
          end).
  match goal with p : (json * json)%type |- _ => destruct p as [client b] end.
  right. unfold match_client, device_writes.
  repeat match goal with
         | |- context [if ?c then _ else _] => destruct c
         end;
    first [ left; reflexivity
          | right; eexists; eexists; split; [| reflexivity]; simpl; tauto ].
Qed.

(** X9: a message on a topic whose last segment is [connected] never
    touches the session and never sends anything: whatever its payload, the
    active flag, the circuit id, the circuit, the completed flag, the path
    frequencies, the epochs, the alarm history and the alarm flag are as
    before, and nothing is published or pushed. *)
Theorem status_event_keeps_session (tp : topics) (lib : library) (e : env)
    (m : message) (g : globals) :
  last_segment (topic m) = "connected" ->
  let r := on_mqtt_message tp lib e m g in
  outputs r = []
  /\ SHIFT_STATUS (final r) = SHIFT_STATUS g
  /\ CURRENT_CIRCUIT (final r) = CURRENT_CIRCUIT g
  /\ SENTRY_CIRCUIT (final r) = SENTRY_CIRCUIT g
  /\ CIRCUIT_COMPLETED (final r) = CIRCUIT_COMPLETED g
  /\ PATHS (final r) = PATHS g
  /\ START (final r) = START g
  /\ END (final r) = END g
  /\ ALARMS (final r) = ALARMS g
  /\ ALARM_TRIGGERED (final r) = ALARM_TRIGGERED g.
Proof.
  intro Ht. unfold on_mqtt_message. rewrite Ht. cbn.
  destruct (on_connected_cases m g) as [[x ->] | [-> | (w & b & Hw & ->)]];
    try (cbn; repeat split; reflexivity).
  device_cases Hw; cbn; repeat split; reflexivity.
Qed.

Lemma status_event_keeps_session_witness :
  let r := on_mqtt_message Sample.tp Sample.lib Sample.world
             (Sample.status_event "checkpoint-C" false) Sample.alarmed in
  outputs r = []
  /\ SHIFT_STATUS (final r) = SHIFT_STATUS Sample.alarmed
  /\ CURRENT_CIRCUIT (final r) = CURRENT_CIRCUIT Sample.alarmed
  /\ SENTRY_CIRCUIT (final r) = SENTRY_CIRCUIT Sample.alarmed
  /\ CIRCUIT_COMPLETED (final r) = CIRCUIT_COMPLETED Sample.alarmed
  /\ PATHS (final r) = PATHS Sample.alarmed
  /\ START (final r) = START Sample.alarmed
  /\ END (final r) = END Sample.alarmed
  /\ ALARMS (final r) = ALARMS Sample.alarmed
  /\ ALARM_TRIGGERED (final r) = ALARM_TRIGGERED Sample.alarmed.
Proof.
  apply (status_event_keeps_session Sample.tp Sample.lib Sample.world
           (Sample.status_event "checkpoint-C" false) Sample.alarmed).
  reflexivity.
Defined.

(** X10: a status event [{id, connected}] of a known device writes the flag
    of that device and no other global, and writes [bool(connected)]: any
    truthy value, not only [true], marks the device connected. *)
Theorem known_device_sets_own_flag (tp : topics) (lib : library) (e : env)
    (m : message) (g : globals) (k1 k2 name : string) (connected : json) :
  last_segment (topic m) = "connected" ->
  payload m = Some (JObject [(k1, JStr name); (k2, connected)]) ->
  let r := on_mqtt_message tp lib e m g in
  (name = "circuit-handler" ->
   r = mkRun (set_HANDLER_CONNECTED (truthy connected) g) [] (inr tt))
  /\ (name = "checkpoint-A" ->
      r = mkRun (set_CHK_A_CONNECTED (truthy connected) g) [] (inr tt))
  /\ (name = "checkpoint-B" ->
      r = mkRun (set_CHK_B_CONNECTED (truthy connected) g) [] (inr tt))
  /\ (name = "checkpoint-C" ->
      r = mkRun (set_CHK_C_CONNECTED (truthy connected) g) [] (inr tt))
  /\ (name = "checkpoint-D" ->
      r = mkRun (set_CHK_D_CONNECTED (truthy connected) g) [] (inr tt)).
Proof.
  intros Ht Hp. unfold on_mqtt_message. rewrite Ht. cbn.
  unfold on_connected, json_loads. rewrite Hp. run_prefix.
  repeat split; intros ->; reflexivity.
Qed.

Lemma known_device_sets_own_flag_witness :
  let r := on_mqtt_message Sample.tp Sample.lib Sample.world
             {| topic := "sentry-platform/checkpoints/connected";
                payload := Some (JObject [("id", JStr "checkpoint-D");
                                          ("connected", JStr "false")]) |}
             initial_globals in
  ("checkpoint-D" = "circuit-handler" ->
   r = mkRun (set_HANDLER_CONNECTED true initial_globals) [] (inr tt))
  /\ ("checkpoint-D" = "checkpoint-A" ->
      r = mkRun (set_CHK_A_CONNECTED true initial_globals) [] (inr tt))
  /\ ("checkpoint-D" = "checkpoint-B" ->
      r = mkRun (set_CHK_B_CONNECTED true initial_globals) [] (inr tt))
  /\ ("checkpoint-D" = "checkpoint-C" ->
      r = mkRun (set_CHK_C_CONNECTED true initial_globals) [] (inr tt))
  /\ ("checkpoint-D" = "checkpoint-D" ->
      r = mkRun (set_CHK_D_CONNECTED true initial_globals) [] (inr tt)).
Proof.
  apply (known_device_sets_own_flag Sample.tp Sample.lib Sample.world
           {| topic := "sentry-platform/checkpoints/connected";
              payload := Some (JObject [("id", JStr "checkpoint-D");
                                        ("connected", JStr "false")]) |}
           initial_globals "id" "connected" "checkpoint-D" (JStr "false"));
    reflexivity.
Defined.

(** X11: the connection flags of the five devices are written by status
    events only: a message on any topic whose last segment is not
    [connected] leaves all five as they are. *)
Theorem device_flags_written_by_status_events_only (tp : topics)
    (lib : library) (e : env) (m : message) (g : globals) :
  (last_segment (topic m) =? "connected")%string = false ->
  let g' := final (on_mqtt_message tp lib e m g) in
  HANDLER_CONNECTED g' = HANDLER_CONNECTED g
  /\ CHK_A_CONNECTED g' = CHK_A_CONNECTED g
  /\ CHK_B_CONNECTED g' = CHK_B_CONNECTED g
  /\ CHK_C_CONNECTED g' = CHK_C_CONNECTED g
  /\ CHK_D_CONNECTED g' = CHK_D_CONNECTED g.
Proof.
  intro Ht. cbv zeta.
  assert (Hp : preserves
                 (fun g' => HANDLER_CONNECTED g' = HANDLER_CONNECTED g
                            /\ CHK_A_CONNECTED g' = CHK_A_CONNECTED g
                            /\ CHK_B_CONNECTED g' = CHK_B_CONNECTED g
                            /\ CHK_C_CONNECTED g' = CHK_C_CONNECTED g
                            /\ CHK_D_CONNECTED g' = CHK_D_CONNECTED g)
                 (on_mqtt_message tp lib e m)).
  { unfold on_mqtt_message. rewrite Ht.
    unfold on_overdue_scan, on_alerts, on_done, raise_alarm. frame. }
  apply Hp. repeat split.
Qed.

Lemma device_flags_written_by_status_events_only_witness :
  let g' := final (on_mqtt_message Sample.tp Sample.lib Sample.world
                     (Sample.overdue "04a1b2c3" "A" 1700000000)
                     Sample.selected) in
  HANDLER_CONNECTED g' = HANDLER_CONNECTED Sample.selected
  /\ CHK_A_CONNECTED g' = CHK_A_CONNECTED Sample.selected
  /\ CHK_B_CONNECTED g' = CHK_B_CONNECTED Sample.selected
  /\ CHK_C_CONNECTED g' = CHK_C_CONNECTED Sample.selected
  /\ CHK_D_CONNECTED g' = CHK_D_CONNECTED Sample.selected.
Proof.
  apply (device_flags_written_by_status_events_only Sample.tp Sample.lib
           Sample.world (Sample.overdue "04a1b2c3" "A" 1700000000)
           Sample.selected).
  reflexivity.
Defined.

(** ** Alarms and scan results in full *)





Lemma valid_scan_event_inv (tp : topics) (m : message) :
  valid_scan_event tp m = true ->
  exists k1 valid k2 reason k3 id k4 chk k5 time,
    arm_of tp m = Alerts
    /\ payload m
       = Some (JObject [(k1, valid); (k2, reason); (k3, id); (k4, chk);
                        (k5, time)])
    /\ truthy valid = true.
Proof.
  unfold valid_scan_event.
  destruct (arm_of tp m); try discriminate.
  destruct (payload m) as [[| | | | | | items] |]; try discriminate.
  destruct items
    as [| [k1 v1] [| [k2 v2] [| [k3 v3] [| [k4 v4] [| [k5 v5] [| ? ?]]]]]];
    try discriminate.
  intro H. exists k1, v1, k2, v2, k3, v3, k4, v4, k5, v5. auto.
Qed.

(** X14: a scan result reported valid never raises the alarm: the flag and
    the history are as before and nothing is published.  The only global it
    writes is the circuit, which becomes what [update_circuit] leaves of it
    when given the payload without its first two items. *)
Theorem valid_scan_never_alarms (tp : topics) (lib : library) (e : env)
    (m : message) (g : globals) :
  valid_scan_event tp m = true ->
  let r := on_mqtt_message tp lib e m g in
  final r
  = set_SENTRY_CIRCUIT
      (fst (update_circuit lib (SENTRY_CIRCUIT g) (skipn 2 (payload_items m))))
      g
  /\ ALARM_TRIGGERED (final r) = ALARM_TRIGGERED g
  /\ ALARMS (final r) = ALARMS g
  /\ existsb publishes (outputs r) = false.
Proof.
  intro H.
  destruct (valid_scan_event_inv tp m H)
    as (k1 & valid & k2 & reason & k3 & id & k4 & chk & k5 & time
        & Harm & Hp & Hv).
  cbv zeta.
  assert (Hr : exists outs res,
             on_mqtt_message tp lib e m g
             = mkRun
                 (set_SENTRY_CIRCUIT
                    (fst (update_circuit lib (SENTRY_CIRCUIT g)
                            (skipn 2 (payload_items m)))) g)
                 outs res
             /\ existsb publishes outs = false).
  { rewrite on_mqtt_message_arm, Harm.
    unfold payload_items. rewrite Hp.
    unfold on_alerts, json_loads. rewrite Hp. run_prefix. rewrite Hv.
    unfold bind at 1. unfold call_update_circuit. cbn [skipn].
    destruct (update_circuit lib (SENTRY_CIRCUIT g) _) as [c [x |]];
      [cbn; eexists; eexists; split; reflexivity |].
    destruct id; cbn; eexists; eexists; split; reflexivity. }
  destruct Hr as (outs & res & -> & Ho).
  cbn. repeat split. exact Ho.
Qed.

Lemma valid_scan_never_alarms_witness :
  let m := Sample.scan true "" "04a1b2c3" "B" 1700000650 in
  let r := on_mqtt_message Sample.tp Sample.lib Sample.world m
             Sample.alarmed in
  final r
  = set_SENTRY_CIRCUIT
      (fst (update_circuit Sample.lib (SENTRY_CIRCUIT Sample.alarmed)
              (skipn 2 (payload_items m))))
      Sample.alarmed
  /\ ALARM_TRIGGERED (final r) = ALARM_TRIGGERED Sample.alarmed
  /\ ALARMS (final r) = ALARMS Sample.alarmed
  /\ existsb publishes (outputs r) = false.
Proof.
  apply (valid_scan_never_alarms Sample.tp Sample.lib Sample.world
           (Sample.scan true "" "04a1b2c3" "B" 1700000650) Sample.alarmed).
  reflexivity.
Defined.



(** ** Topics *)

Lemma split_app_sep (p s : string) :
  exists h t,
    split "/" (p ++ String "/" s) = h :: t
    /\ t <> []
    /\ last t EmptyString = last (split "/" s) EmptyString.
Proof.
  induction p as [| c p IH].
  - exists EmptyString, (split "/" s). cbn. repeat split.
    destruct s as [| c s]; cbn; [discriminate |].
    destruct (Ascii.eqb c "/"); [discriminate |].
    destruct (split "/" s); discriminate.
  - destruct IH as (h & t & Hs & Ht & Hl).
    cbn [append split]. rewrite Hs.
    destruct (Ascii.eqb c "/").
    + exists EmptyString, (h :: t). repeat split; [discriminate |].
      destruct t as [| x t]; [contradiction | exact Hl].
    + exists (String c h), t. repeat split; assumption.
Qed.

Lemma last_segment_app (p s : string) :
  last_segment (p ++ String "/" s) = last_segment s.
Proof.
  unfold last_segment.
  destruct (split_app_sep p s) as (h & t & -> & Ht & Hl).
  destruct t as [| x t]; [contradiction | exact Hl].
Qed.

(** X16: the first two arms look at the last segment of the topic only: a
    message on [prefix/connected] is handled as a status event and one on
    [prefix/overdue-scan] as an overdue event for every prefix, also when
    the topic is the very topic of scan results or of shift completion. *)
Theorem last_segment_decides_arm (tp : topics) (lib : library) (e : env)
    (prefix : string) (p : option json) (g : globals) :
  on_mqtt_message tp lib e (mkMessage (prefix ++ "/connected") p) g
  = on_connected (mkMessage (prefix ++ "/connected") p) g
  /\ on_mqtt_message tp lib e (mkMessage (prefix ++ "/overdue-scan") p) g
     = on_overdue_scan tp lib e (mkMessage (prefix ++ "/overdue-scan") p) g.
Proof.
  unfold on_mqtt_message. cbn [topic].
  change (prefix ++ "/connected") with (prefix ++ String "/" "connected").
  change (prefix ++ "/overdue-scan")
    with (prefix ++ String "/" "overdue-scan").
  rewrite !last_segment_app. split; reflexivity.
Qed.

(** X17: the arms of shift completion and of unknown topics never read the
    payload and never raise: shift completion sets the completed flag,
    clears the active flag, publishes shift-off and pushes its message, and
    keeps the circuit, its id and the alarm state; a message on any other
    topic changes and sends nothing. *)
Theorem payload_unread_on_done_and_unknown (tp : topics) (lib : library)
    (e : env) (m : message) (g : globals) :
  (arm_of tp m = Done ->
   on_mqtt_message tp lib e m g
   = mkRun
       {| SHIFT_STATUS := false;
          CURRENT_CIRCUIT := CURRENT_CIRCUIT g;
          SENTRY_CIRCUIT := SENTRY_CIRCUIT g;
          CIRCUIT_COMPLETED := true;
          PATHS := PATHS g;
          START := START g;
          END := END g;
          ALARMS := ALARMS g;
          ALARM_TRIGGERED := ALARM_TRIGGERED g;
          CURRENT_SCANNED_SENTRY := CURRENT_SCANNED_SENTRY g;
          APP_CONNECTED := APP_CONNECTED g;
          HANDLER_CONNECTED := HANDLER_CONNECTED g;
          CHK_A_CONNECTED := CHK_A_CONNECTED g;
          CHK_B_CONNECTED := CHK_B_CONNECTED g;
          CHK_C_CONNECTED := CHK_C_CONNECTED g;
          CHK_D_CONNECTED := CHK_D_CONNECTED g |}
       [Publish (SHIFT_ON_OFF tp) "OFF" 0;
        Emit "alert-msgs" "alert-success"
          "<strong>CIRCUIT COMPLETE!</strong> Save and exit."]
       (inr tt))
  /\ (arm_of tp m = Unhandled ->
      on_mqtt_message tp lib e m g = mkRun g [] (inr tt)).
Proof.
  rewrite on_mqtt_message_arm. split; intros ->; reflexivity.
Qed.

(** ** Raising and silencing *)

(** X18: an alarm raised by an overdue event and then silenced leaves its
    trace in the history and nowhere else: the flag is false again, the
    history has the time of the alarm at its end, and every other global is
    as it was before the event. *)
Theorem alarm_then_silence (tp : topics) (lib : library) (e : env)
    (m : message) (g : globals) (history : list string) :
  ALARMS g = Some history ->
  overdue_event lib m = true ->
  final (silence_alarm tp (final (on_mqtt_message tp lib e m g)))
  = set_ALARMS (Some (history ++ [now e])%list) (set_ALARM_TRIGGERED false g).
Proof.
  intros Ha Hm.
  destruct (overdue_event_with_alarm_list tp lib e m g history Ha Hm)
    as [text ->].
  reflexivity.
Qed.

Lemma alarm_then_silence_witness :
  final (silence_alarm Sample.tp
           (final (on_mqtt_message Sample.tp Sample.lib Sample.world
                     (Sample.overdue "04a1b2c3" "A" 1700000000)
                     Sample.selected)))
  = set_ALARMS (Some ([] ++ [now Sample.world])%list)
      (set_ALARM_TRIGGERED false Sample.selected).
Proof.
  apply (alarm_then_silence Sample.tp Sample.lib Sample.world
           (Sample.overdue "04a1b2c3" "A" 1700000000) Sample.selected []);
    reflexivity.
Defined.

(** ** The assignments of a new circuit *)

Lemma comprehension_fails {A B : Type} (f : A -> option B) (xs : list A)
    (x : A) :
  In x xs -> f x = None -> comprehension f xs = None.
Proof.
  induction xs as [| y xs IH]; intros Hin Hx; [destruct Hin |].
  simpl. destruct Hin as [-> | Hin].
  - rewrite Hx. reflexivity.
  - destruct (f y); [| reflexivity]. rewrite (IH Hin Hx). reflexivity.
Qed.

Lemma comprehension_range (ss ps : list Sentry) (cs pc : list Card) :
  length ss = length cs ->
  length ps = length pc ->
  comprehension (assignment_at (ps ++ ss) (pc ++ cs))
    (seq (length pc) (length cs))
  = Some (map (fun sc => (full_name (fst sc), alias (snd sc), rfid_id (snd sc)))
            (combine ss cs)).
Proof.
  revert ps cs pc.
  induction ss as [| s ss IH]; intros ps [| c cs] pc Hl Hp;
    try discriminate; [reflexivity |].
  cbn [length seq comprehension combine map fst snd].
  unfold assignment_at at 1.
  rewrite (nth_error_app2 ps) by (rewrite Hp; apply Nat.le_refl).
  rewrite (nth_error_app2 pc) by apply Nat.le_refl.
  rewrite Hp, Nat.sub_diag. cbn [nth_error].
  specialize (IH (ps ++ [s])%list cs (pc ++ [c])%list).
  rewrite <- !app_assoc in IH. cbn [app] in IH.
  rewrite !length_app in IH. cbn [length] in IH.
  rewrite !Nat.add_1_r in IH.
  rewrite IH; [reflexivity | | ].
  - simpl in Hl. congruence.
  - congruence.
Qed.

(** X19: behind its test of the two lengths [create_route] never indexes
    out of range: with as many sentries as cards the assignments are built,
    one per card, the i-th sentry's name with the i-th card's alias and
    identifier; with different numbers nothing is built.  The test is what
    keeps the comprehension in range: on fewer sentries than cards the
    comprehension alone would raise [IndexError]. *)
Theorem assignments_pair_by_position (sentries : list Sentry)
    (rows : list Card) :
  checked_assignments sentries rows
  = (if Nat.eqb (length rows) (length sentries)
     then Some (Some (map (fun sc => (full_name (fst sc), alias (snd sc),
                                      rfid_id (snd sc)))
                        (combine sentries rows)))
     else None)
  /\ ((length sentries < length rows)%nat ->
      assignments sentries rows = None).
Proof.
  split.
  - unfold checked_assignments.
    destruct (Nat.eqb (length rows) (length sentries)) eqn:Hl;
      [| reflexivity].
    apply Nat.eqb_eq in Hl. cbn [negb]. unfold assignments.
    pose proof (comprehension_range sentries [] rows [] (eq_sym Hl) eq_refl)
      as Hc.
    cbn [app length] in Hc. rewrite Hc. reflexivity.
  - intro Hlt. unfold assignments.
    apply (comprehension_fails _ _ (length sentries)).
    + apply in_seq. lia.
    + unfold assignment_at.
      rewrite (proj2 (nth_error_None sentries (length sentries)))
        by apply Nat.le_refl.
      reflexivity.
Qed.

Example assignments_of_two :
  checked_assignments
    [mkSentry "30011223" "Jane Doe" "0700000001";
     mkSentry "30044556" "John Roe" "0700000002"]
    Sample.card_rows
  = Some (Some [("Jane Doe", "card-1", "04a1b2c3");
                ("John Roe", "card-2", "04d4e5f6")]).
Proof. reflexivity. Qed.

(** ** Who writes the circuit *)

Lemma invalid_branch_keeps_circuit (tp : topics) (lib : library) (e : env)
    (reason id chk time : json) (c : option circuit) :
  preserves (fun g => SENTRY_CIRCUIT g = c)
    (tag <- alert_tag e reason id ;;
     raise_alarm tp e ;;
     ID <- str_upper id ;;
     send (Emit "alert-msgs" "alert-danger"
             ("<strong>" ++ tag ++ "!</strong> Sentry with card ID: " ++ ID
              ++ " checked in at checkpoint " ++ fmt lib chk ++ " at "
              ++ fmt lib time ++ "."))).
Proof. unfold raise_alarm. frame. Qed.

(** X20: of all bus messages only a scan result reported valid can change
    the circuit: every other message, whatever its topic and payload and
    whether or not its handling raises, leaves the circuit as it was. *)
Theorem circuit_written_by_valid_scans_only (tp : topics) (lib : library)
    (e : env) (m : message) (g : globals) :
  valid_scan_event tp m = false ->
  SENTRY_CIRCUIT (final (on_mqtt_message tp lib e m g)) = SENTRY_CIRCUIT g.
Proof.
  intro Hv. rewrite on_mqtt_message_arm.
  unfold valid_scan_event in Hv.
  destruct (arm_of tp m); try reflexivity.
  - exact (on_connected_keeps_circuit m (SENTRY_CIRCUIT g) g eq_refl).
  - exact (on_overdue_scan_keeps_circuit tp lib e m (SENTRY_CIRCUIT g) g
             eq_refl).
  - destruct (shape_error 5 m) as [x |] eqn:Hs.
    + unfold on_alerts.
      rewrite (decode_shape_error 5 m unpack5 _ g x unpack5_wrong_length Hs).
      reflexivity.
    + destruct (shape_error_None 5 m Hs) as (items & Hp & Hl).
      destruct items
        as [| [k1 valid] [| [k2 reason] [| [k3 id] [| [k4 chk] [| [k5 time]
            [| ? ?]]]]]];
        try discriminate.
      rewrite Hp in Hv.
      unfold on_alerts, json_loads. rewrite Hp. run_prefix. rewrite Hv.
      exact (invalid_branch_keeps_circuit tp lib e reason id chk time
               (SENTRY_CIRCUIT g) g eq_refl).
Qed.

Lemma circuit_written_by_valid_scans_only_witness :
  SENTRY_CIRCUIT
    (final (on_mqtt_message Sample.tp Sample.lib Sample.world
              (Sample.scan false "wrong checkpoint" "04a1b2c3" "A" 1700000650)
              Sample.selected))
  = SENTRY_CIRCUIT Sample.selected.
Proof.
  apply (circuit_written_by_valid_scans_only Sample.tp Sample.lib
           Sample.world
           (Sample.scan false "wrong checkpoint" "04a1b2c3" "A" 1700000650)
           Sample.selected).
  reflexivity.
Defined.

(** X21: with an alarm list loaded, a scan result reported invalid whose id
    is not a string still raises the alarm in the globals and on the bus,
    and then fails with [AttributeError] at [id.upper()]: the viewers are
    not told. *)
Theorem invalid_scan_bad_id_alarms_without_push (tp : topics)
    (lib : library) (e : env) (m : message) (g : globals)
    (history : list string) (k1 k2 k3 k4 k5 reason : string)
    (valid id chk time : json) :
  ALARMS g = Some history ->
  arm_of tp m = Alerts ->
  payload m
  = Some (JObject [(k1, valid); (k2, JStr reason); (k3, id); (k4, chk);
                   (k5, time)]) ->
  truthy valid = false ->
  (forall s, id <> JStr s) ->
  on_mqtt_message tp lib e m g
  = mkRun (alarm_recorded e history g) [Publish (ALARM tp) "ON" 2]
      (inl AttributeError).
Proof.
  intros Ha Harm Hp Hv Hid.
  rewrite on_mqtt_message_arm, Harm.
  unfold on_alerts, json_loads. rewrite Hp. run_prefix. rewrite Hv.
  unfold alert_tag. cbn [eq_str str_upper]. rewrite in_cards_false.
  cbn [negb].
  destruct (reason =? "card not on duty")%string;
    rewrite bind_ret_l; unfold bind at 1; rewrite raise_alarm_run, Ha;
    cbn [result final outputs];
    (destruct id as [| b | z | f | s | l | items]; try reflexivity;
     exfalso; exact (Hid s eq_refl)).
Qed.

Lemma invalid_scan_bad_id_alarms_without_push_witness :
  on_mqtt_message Sample.tp Sample.lib Sample.world
    {| topic := ALERTS Sample.tp;
       payload := Some (JObject [("valid", JBool false);
                                 ("reason", JStr "card not on duty");
                                 ("id", JNull); ("checkpoint", JStr "A");
                                 ("time", JInt 1700000650)]) |}
    Sample.selected
  = mkRun (alarm_recorded Sample.world [] Sample.selected)
      [Publish (ALARM Sample.tp) "ON" 2] (inl AttributeError).
Proof.
  apply (invalid_scan_bad_id_alarms_without_push Sample.tp Sample.lib
           Sample.world _ Sample.selected [] "valid" "reason" "id"
           "checkpoint" "time" "card not on duty" (JBool false) JNull
           (JStr "A") (JInt 1700000650));
    try reflexivity.
  intros s. discriminate.
Defined.
